(** * JiraLand: the file-handling pipeline of [JLFileHandler.py]

    A shallow embedding of [FileHandler] (loading, normalising, merging and
    exporting two spreadsheet exports) and of the entry point [generate] of
    [JiraLand.py], with the properties of its specification.

    Python values are modelled as follows.
    - [str] is [string]; indexing, [split], [in], [max] and the two regular
      expressions of the source work on its characters.
    - A call either returns a value or raises: [Result].  [try]/[except] is
      a match on the raised exception.
    - [Union[DataFrame | JLError]] is the sum [OrError]; [isinstance] is a
      match on it.
    - A pandas [DataFrame] is a list of column names, a list of rows, each
      row an index label and a finite map from column name to cell, and the
      names of the columns of numeric type, which a merge checks on its
      key. *)

From Stdlib Require Import Ascii String.
From stdpp Require Import base option list gmap strings pretty.

Local Open Scope string_scope.

(** ** Exceptions and results *)

Inductive exn : Type :=
| FileNotFoundError
| KeyError
| ValueError
| TypeError
| AttributeError
| IndexError
| ReError        (* re.error *)
| OSError
| ParserError.   (* what a pandas reader raises on bytes it cannot parse *)

Inductive Result (A : Type) : Type :=
| Ok (a : A)
| Raise (e : exn).
Arguments Ok {A} a.
Arguments Raise {A} e.

Definition bind {A B : Type} (r : Result A) (k : A -> Result B) : Result B :=
  match r with
  | Ok a => k a
  | Raise e => Raise e
  end.

Notation "x <- r ;; k" := (bind r (fun x => k))
  (at level 100, r at next level, right associativity).

(** [mapM f l]: a list comprehension whose element expression may raise;
    the first exception, in iteration order, escapes. *)
Fixpoint mapM {A B : Type} (f : A -> Result B) (l : list A) : Result (list B) :=
  match l with
  | [] => Ok []
  | a :: l' => b <- f a ;; bs <- mapM f l' ;; Ok (b :: bs)
  end.

(** ** JLError.py *)

Record JLError : Type := mkJLError { message : string }.

(** [JLError.__str__] *)
Definition JLError_str (e : JLError) : string := message e.

(** ** Python strings *)

Module Py.

(** [s.split(sep)] for a one-character separator: never empty. *)
Fixpoint split (sep : ascii) (s : string) : list string :=
  match s with
  | EmptyString => [EmptyString]
  | String c s' =>
      if Ascii.eqb c sep then EmptyString :: split sep s'
      else match split sep s' with
           | seg :: rest => String c seg :: rest
           | [] => [String c EmptyString]
           end
  end.

(** [l[-1]] on a list *)
Definition list_last {A : Type} (l : list A) : Result A :=
  match last l with
  | Some a => Ok a
  | None => Raise IndexError
  end.

(** [s[-1]] on a string: its last character, as a string of length one. *)
Fixpoint str_last (s : string) : Result string :=
  match s with
  | EmptyString => Raise IndexError
  | String c EmptyString => Ok (String c EmptyString)
  | String _ s' => str_last s'
  end.

(** [needle in hay] *)
Fixpoint contains (needle hay : string) : bool :=
  String.prefix needle hay ||
  match hay with
  | EmptyString => false
  | String _ hay' => contains needle hay'
  end.

(** [max(l)] on strings: the first of the greatest, compared character by
    character; [ValueError] on the empty list. *)
Definition max (l : list string) : Result string :=
  match l with
  | [] => Raise ValueError
  | x :: l' => Ok (fold_left (fun cur y => if String.ltb cur y then y else cur) l' x)
  end.

End Py.

(** ** The [re] module, for the two patterns of the source

    A pattern is given by its matcher: from the rest of the subject at a
    position, the length of the match that starts there, if any.  Both
    patterns of the source have matches of fixed, positive length. *)

Module Re.

Definition pattern : Type := string -> option nat.

Definition is_digit (c : ascii) : bool :=
  (48 <=? nat_of_ascii c)%nat && (nat_of_ascii c <=? 57)%nat.

(** [r'[0-9]{2}\.[0-9]{1}'] *)
Definition pi_pattern : pattern := fun rest =>
  match rest with
  | String a (String b (String c (String d _))) =>
      if is_digit a && is_digit b && Ascii.eqb c "." && is_digit d
      then Some 4%nat else None
  | _ => None
  end.

(** [r'[0-9]{1}$']: [$] matches at the end of the subject and just before
    a newline that ends it. *)
Definition sprint_pattern : pattern := fun rest =>
  match rest with
  | String a EmptyString => if is_digit a then Some 1%nat else None
  | String a (String b EmptyString) =>
      if is_digit a && Ascii.eqb b "010" then Some 1%nat else None
  | _ => None
  end.

Fixpoint take (n : nat) (s : string) : string :=
  match n, s with
  | S k, String c s' => String c (take k s')
  | _, _ => EmptyString
  end.

(** [re.search(p, s)]: the leftmost match, [None] when there is none.
    The result is the matched text, [m.group(0)]. *)
Fixpoint search (p : pattern) (s : string) : option string :=
  match p s with
  | Some n => Some (take n s)
  | None =>
      match s with
      | EmptyString => None
      | String _ s' => search p s'
      end
  end.

(** The replacement of [re.sub] is a template: one that holds a backslash
    is parsed for escapes.  The templates this program passes are a match
    of [pi_pattern] (no backslash) and a single character; the single
    backslash is rejected by [re] as a bad escape. *)
Definition template (repl : string) : Result string :=
  if Py.contains "\" repl then Raise ReError else Ok repl.

(** Left to right, every non-overlapping match replaced; [skip] counts the
    characters of the current match still to be dropped. *)
Fixpoint sub_from (p : pattern) (repl : string) (skip : nat) (s : string) : string :=
  match s with
  | EmptyString => EmptyString
  | String c s' =>
      match skip with
      | S k => sub_from p repl k s'
      | O =>
          match p s with
          | Some (S n) => repl +:+ sub_from p repl n s'
          | _ => String c (sub_from p repl 0 s')
          end
      end
  end.

End Re.

(** ** pandas tables *)

(** A cell: a string, a number or a missing value ([NaN]).  The pipeline
    only ever looks inside string cells; numbers are carried as integers. *)
Inductive value : Type :=
| VStr (s : string)
| VNum (z : Z)
| VNaN.

Global Instance value_eq_dec : EqDecision value.
Proof. solve_decision. Defined.

(** A row is its index label and a map from column name to cell; a table
    lists its column names and its rows, both in order, and the names of
    the columns whose type is numeric (int64, float64); the type of every
    other column is object.  The type of a column is set when the table is
    read and stays when rows are filtered. *)
Record DataFrame : Type := mkDataFrame {
  columns : list string;
  rows : list (nat * gmap string value);
  numeric : list string
}.

(** A column taken out of a table: labelled cells. *)
Record Series : Type := mkSeries { items : list (nat * value) }.

(** What [df.apply(f, axis=1)] returns: a series, or on a table without
    rows a copy of the table. *)
Inductive Applied : Type :=
| AppliedSeries (s : Series)
| AppliedFrame (df : DataFrame).

Module Pd.

(** The cell of a row under a column; a cell that is not there reads as
    missing. *)
Definition cell (r : gmap string value) (c : string) : value :=
  default VNaN (r !! c).

Definition has_columns (cols : list string) (df : DataFrame) : bool :=
  forallb (fun c => bool_decide (c ∈ columns df)) cols.

Definition restrict (cols : list string) (r : gmap string value) : gmap string value :=
  filter (fun kv => kv.1 ∈ cols) r.

(** [df[[c1, ..., cn]]]: the listed columns, in the listed order;
    [KeyError] when one is not a column of [df]. *)
Definition getitem_columns (df : DataFrame) (cols : list string) : Result DataFrame :=
  if has_columns cols df
  then Ok (mkDataFrame cols (map (fun lr => (lr.1, restrict cols lr.2)) (rows df))
                       (filter (fun c => c ∈ cols) (numeric df)))
  else Raise KeyError.

Definition rename_key (old new : string) (r : gmap string value) : gmap string value :=
  match r !! old with
  | Some v => <[new := v]> (delete old r)
  | None => r
  end.

(** [df.rename(columns={old: new})]; a name that is not a column is
    ignored. *)
Definition rename (df : DataFrame) (old new : string) : DataFrame :=
  mkDataFrame (map (fun c => if decide (c = old) then new else c) (columns df))
              (map (fun lr => (lr.1, rename_key old new lr.2)) (rows df))
              (map (fun c => if decide (c = old) then new else c) (numeric df)).

(** [df.query("col == s")] for a string [s]: the rows whose cell under
    [col] is that string, labels kept. *)
Definition query_eq (df : DataFrame) (col s : string) : DataFrame :=
  mkDataFrame (columns df)
              (filter (fun lr => cell lr.2 col = VStr s) (rows df))
              (numeric df).

(** [df.loc[:, col]] *)
Definition loc_column (df : DataFrame) (col : string) : Result Series :=
  if bool_decide (col ∈ columns df)
  then Ok (mkSeries (map (fun lr => (lr.1, cell lr.2 col)) (rows df)))
  else Raise KeyError.

(** Iterating a series yields its cells. *)
Definition values (s : Series) : list value := map snd (items s).

(** [s[k]] on a series with integer labels looks the LABEL [k] up, not
    the position: [KeyError] when no row carries it. *)
Definition getitem_label (s : Series) (k : nat) : Result value :=
  match find (fun lv => bool_decide (lv.1 = k)) (items s) with
  | Some lv => Ok lv.2
  | None => Raise KeyError
  end.

(** Column names of a merge: a name the two tables share, other than the
    key, gets a suffix. *)
Definition suffixed (key : string) (others : list string) (sfx c : string) : string :=
  if bool_decide (c ≠ key) && bool_decide (c ∈ others) then c +:+ sfx else c.

Definition merge_columns (key : string) (lcols rcols : list string) : list string :=
  map (suffixed key rcols "_x") lcols ++
  map (suffixed key lcols "_y") (filter (fun c => c ≠ key) rcols).

(** The row of a pair: the cells of the left row under the left columns,
    then those of the right row under the right columns but the key, each
    under its name in the merged table. *)
Definition merge_row (key : string) (lcols rcols : list string)
    (l r : gmap string value) : gmap string value :=
  list_to_map
    (zip (merge_columns key lcols rcols)
         (map (cell l) lcols ++ map (cell r) (filter (fun c => c ≠ key) rcols))).

(** The pairs of an inner join, in the order of the left rows and, for
    one left row, of the right rows: those whose key cells are equal. *)
Definition join_pairs (key : string) (ls rs : list (nat * gmap string value))
    : list (gmap string value * gmap string value) :=
  l ← ls; r ← filter (fun r => cell l.2 key = cell r.2 key) rs; [(l.2, r.2)].

Definition relabel (rs : list (gmap string value)) : list (nat * gmap string value) :=
  imap (fun i r => (i, r)) rs.

Definition is_str (v : value) : bool :=
  match v with VStr _ => true | _ => false end.

Definition is_num (v : value) : bool :=
  match v with VNum _ => true | _ => false end.

(** The cells of a column, in row order. *)
Definition column_cells (df : DataFrame) (c : string) : list value :=
  map (fun lr => cell lr.2 c) (rows df).

(** What pandas infers of the cells of an object column is string-like
    ("string", "mixed") when a string is among them and no integer. *)
Definition string_like (cells : list value) : bool :=
  existsb is_str cells && negb (existsb is_num cells).

Definition is_empty (df : DataFrame) : bool :=
  match rows df with [] => true | _ => false end.

(** The check of the key columns before a merge: when their types differ,
    one numeric and one object with string-like cells, the merge is
    refused.  Keys of which exactly one has no row are not checked. *)
Definition keys_clash (left right : DataFrame) (key : string) : bool :=
  if xorb (is_empty left) (is_empty right) then false
  else
    match bool_decide (key ∈ numeric left), bool_decide (key ∈ numeric right) with
    | true, false => string_like (column_cells right key)
    | false, true => string_like (column_cells left key)
    | _, _ => false
    end.

(** The numeric columns of a merge: those of either table under their
    merged names, and the key when it is numeric in both. *)
Definition merge_numeric (key : string) (left right : DataFrame) : list string :=
  map (suffixed key (columns right) "_x") (filter (fun c => c ≠ key) (numeric left)) ++
  map (suffixed key (columns left) "_y") (filter (fun c => c ≠ key) (numeric right)) ++
  (if bool_decide (key ∈ numeric left) && bool_decide (key ∈ numeric right)
   then [key] else []).

(** [pd.merge(left, right, on=[key])]: an inner join, relabelled from 0;
    [KeyError] when a table lacks the key, [ValueError] when the types of
    the key columns clash. *)
Definition merge (left right : DataFrame) (key : string) : Result DataFrame :=
  if bool_decide (key ∈ columns left) && bool_decide (key ∈ columns right)
  then
    if keys_clash left right key then Raise ValueError
    else Ok (mkDataFrame
               (merge_columns key (columns left) (columns right))
               (relabel (map (fun lr => merge_row key (columns left) (columns right) lr.1 lr.2)
                             (join_pairs key (rows left) (rows right))))
               (merge_numeric key left right))
  else Raise KeyError.

(** [sep.join(cells)]: [TypeError] on a cell that is not a string. *)
Fixpoint str_join (sep : string) (cells : list value) : Result string :=
  match cells with
  | [] => Ok EmptyString
  | [VStr s] => Ok s
  | VStr s :: cells' => t <- str_join sep cells' ;; Ok (s +:+ sep +:+ t)
  | _ :: _ => Raise TypeError
  end.

(** [df.apply(sep.join, axis=1)]: one joined string per row.  On a table
    without rows the function is not called on rows: pandas tries it on one
    row of missing cells, the join raises on them, and a copy of the table
    comes back (an empty series when the table has no column either). *)
Definition apply_join (df : DataFrame) (sep : string) : Result Applied :=
  match rows df, columns df with
  | [], [] => Ok (AppliedSeries (mkSeries []))
  | [], _ :: _ => Ok (AppliedFrame df)
  | _ :: _, _ =>
      its <- mapM (fun lr => s <- str_join sep (map (cell lr.2) (columns df)) ;;
                             Ok (lr.1, VStr s)) (rows df) ;;
      Ok (AppliedSeries (mkSeries its))
  end.

(** [df[col] = s]: cells aligned on the labels; a new name is appended to
    the columns; the column is an object column when a cell assigned is a
    string, numeric otherwise. *)
Definition setitem (df : DataFrame) (col : string) (s : Series) : DataFrame :=
  mkDataFrame
    (if bool_decide (col ∈ columns df) then columns df else columns df ++ [col])
    (map (fun lr => (lr.1, <[col := default VNaN (snd <$> find (fun lv => bool_decide (lv.1 = lr.1)) (items s))]> lr.2))
         (rows df))
    (if existsb (fun lr => is_str (default VNaN (snd <$> find (fun lv => bool_decide (lv.1 = lr.1)) (items s))))
                (rows df)
     then filter (fun c => c ≠ col) (numeric df)
     else col :: filter (fun c => c ≠ col) (numeric df)).

(** [df[col] = v] for what [apply] returned: a table is assigned to one
    column only when it has one column, [ValueError] otherwise. *)
Definition assign (df : DataFrame) (col : string) (v : Applied) : Result DataFrame :=
  match v with
  | AppliedSeries s => Ok (setitem df col s)
  | AppliedFrame t =>
      match columns t with
      | [c] => Ok (setitem df col (mkSeries (map (fun lr => (lr.1, cell lr.2 c)) (rows t))))
      | _ => Raise ValueError
      end
  end.

End Pd.


(** ** The file system and the pandas readers and writer *)

(** What a run of the pipeline can observe of its environment: the bytes
    under each path, whether a file may be created under a path, and the
    line terminator of the platform ([os.linesep]). *)
Record World : Type := mkWorld {
  files : gmap string string;
  writable : string -> bool;
  linesep : string
}.

Definition nl : string := String "010" EmptyString.
Definition dquote : string := String "034" EmptyString.

Module Csv.

(** A field is quoted when it holds the delimiter, the quote character or
    a line break; quote characters inside are written twice. *)
Definition needs_quote (s : string) : bool :=
  Py.contains "," s || Py.contains dquote s ||
  Py.contains nl s || Py.contains (String "013" EmptyString) s.

Fixpoint double_quotes (s : string) : string :=
  match s with
  | EmptyString => EmptyString
  | String c s' =>
      if Ascii.eqb c "034" then String c (String c (double_quotes s'))
      else String c (double_quotes s')
  end.

Definition field (s : string) : string :=
  if needs_quote s then dquote +:+ double_quotes s +:+ dquote else s.

(** A missing cell is written as the empty field. *)
Definition render (v : value) : string :=
  match v with
  | VStr s => field s
  | VNum z => pretty z
  | VNaN => EmptyString
  end.

Definition line (sep : string) (fields : list string) : string :=
  String.concat "," fields +:+ sep.

(** Header line, then one line per row, no index column. *)
Definition text (sep : string) (df : DataFrame) (cols : list string) : string :=
  line sep (map field cols) +:+
  String.concat EmptyString
    (map (fun lr => line sep (map (fun c => render (Pd.cell lr.2 c)) cols)) (rows df)).

End Csv.

(** [df.to_csv(path, columns=cols, index=False)] *)
Definition to_csv (w : World) (df : DataFrame) (path : string) (cols : list string)
    : Result World :=
  if negb (Pd.has_columns cols df) then Raise KeyError
  else if writable w path
  then Ok (mkWorld (<[path := Csv.text (linesep w) df cols]> (files w))
                   (writable w) (linesep w))
  else Raise OSError.

(** A value of type [Union[A | JLError]]. *)
Inductive OrError (A : Type) : Type :=
| Value (a : A)
| Error (e : JLError).
Arguments Value {A} a.
Arguments Error {A} e.

(** ** JLFileHandler.py *)

Module FileHandler.

Section Readers.

(** What [pd.read_csv] and [pd.read_excel] make of the bytes of a file:
    a table, or the exception they raise on bytes they cannot parse. *)
Variable parse_csv : string -> Result DataFrame.
Variable parse_excel : string -> Result DataFrame.

(** [pd.read_csv(path)] *)
Definition read_csv (w : World) (path : string) : Result DataFrame :=
  match files w !! path with
  | None => Raise FileNotFoundError
  | Some bytes => parse_csv bytes
  end.

(** [pd.read_excel(path)] *)
Definition read_excel (w : World) (path : string) : Result DataFrame :=
  match files w !! path with
  | None => Raise FileNotFoundError
  | Some bytes => parse_excel bytes
  end.

Definition supported_file_types : gset string := {[ "xls"; "xlsx"; "csv" ]}.

Definition unsupported_file_type : JLError :=
  mkJLError ("Unsupported file type." +:+ nl +:+ "Please use only excel or csv files.").

Definition _check_file_extension (file : string) : Result (OrError string) :=
  file_extension <- Py.list_last (Py.split "." file) ;;
  if bool_decide (file_extension ∈ supported_file_types)
  then Ok (Value file_extension)
  else Ok (Error unsupported_file_type).

Definition supported_methods : gmap string (World -> string -> Result DataFrame) :=
  {[ "xls" := read_excel; "xlsx" := read_excel; "csv" := read_csv ]}.

Definition file_not_found : JLError := mkJLError "File not found!".

Definition _load_data (w : World) (file : string) : Result (OrError DataFrame) :=
  file_type_check_result <- _check_file_extension file ;;
  match file_type_check_result with
  | Error e => Ok (Error e)
  | Value ext =>
      let attempt :=
        match supported_methods !! ext with
        | Some reader => reader w file
        | None => Raise KeyError
        end in
      match attempt with
      | Raise FileNotFoundError => Ok (Error file_not_found)
      | Raise e => Raise e
      | Ok raw_data => Ok (Value raw_data)
      end
  end.

(** [re.search(pattern, pi).group(0)] for one cell: [TypeError] on a cell
    that is not a string, [AttributeError] when there is no match. *)
Definition pi_of (pi : value) : Result string :=
  match pi with
  | VStr s =>
      match Re.search Re.pi_pattern s with
      | Some m => Ok m
      | None => Raise AttributeError
      end
  | _ => Raise TypeError
  end.

Definition _determine_current_pi (sprints : Series) : Result string :=
  found <- mapM pi_of (Pd.values sprints) ;;
  Py.max found.

(** One step of [[sprint[-1] for sprint in sprints if current_pi in sprint]] *)
Definition last_if_in (current_pi : string) (sprint : value) : Result (option string) :=
  match sprint with
  | VStr s =>
      if Py.contains current_pi s
      then c <- Py.str_last s ;; Ok (Some c)
      else Ok None
  | _ => Raise TypeError
  end.

Definition _determine_latest_sprint (sprints : Series) (current_pi : string)
    : Result string :=
  kept <- mapM (last_if_in current_pi) (Pd.values sprints) ;;
  Py.max (omap id kept).

(** [re.sub(p, repl, v)] on a cell: the template is compiled first, then a
    subject that is not a string is refused. *)
Definition re_sub (p : Re.pattern) (repl : string) (v : value) : Result string :=
  t <- Re.template repl ;;
  match v with
  | VStr s => Ok (Re.sub_from p t 0 s)
  | _ => Raise TypeError
  end.

Definition _compose_query (sprints : Series) (current_pi current_sprint : string)
    : Result string :=
  raw_data <- Pd.getitem_label sprints 0 ;;
  modified_query <- re_sub Re.pi_pattern current_pi raw_data ;;
  final_query <- re_sub Re.sprint_pattern current_sprint (VStr modified_query) ;;
  Ok final_query.

Definition jira_columns : list string :=
  ["Summary"; "Issue key"; "Issue Type"; "Custom field (Feature Link)"; "Sprint"].

Definition map_columns : list string := ["Feature"; "Label"].

Definition columns_missing : JLError :=
  mkJLError ("One or more table columns missing." +:+ nl +:+
             "Please check if table is in expected format.").

(** The part of [_normalize_jira_export_file] after the column selection. *)
Definition latest_sprint_rows (truncated_data : DataFrame) : Result DataFrame :=
  let truncated_data := Pd.rename truncated_data "Custom field (Feature Link)" "Feature" in
  let truncated_data := Pd.query_eq truncated_data "Issue Type" "Story" in
  sprints_info <- Pd.loc_column truncated_data "Sprint" ;;
  active_pi <- _determine_current_pi sprints_info ;;
  active_sprint <- _determine_latest_sprint sprints_info active_pi ;;
  query <- _compose_query sprints_info active_pi active_sprint ;;
  Ok (Pd.query_eq truncated_data "Sprint" query).

Definition _normalize_jira_export_file (w : World) (file : string)
    : Result (OrError DataFrame) :=
  file_extraction_result <- _load_data w file ;;
  match file_extraction_result with
  | Error e => Ok (Error e)
  | Value raw =>
      match Pd.getitem_columns raw jira_columns with
      | Raise KeyError => Ok (Error columns_missing)
      | Raise e => Raise e
      | Ok truncated_data =>
          normalized_data <- latest_sprint_rows truncated_data ;;
          Ok (Value normalized_data)
      end
  end.

Definition _normalize_map_file (w : World) (file : string)
    : Result (OrError DataFrame) :=
  file_extraction_result <- _load_data w file ;;
  match file_extraction_result with
  | Error e => Ok (Error e)
  | Value raw =>
      match Pd.getitem_columns raw map_columns with
      | Raise KeyError => Ok (Error columns_missing)
      | Raise e => Raise e
      | Ok normalized_map_data => Ok (Value normalized_map_data)
      end
  end.

(** The part of [_merge_files] that joins two tables. *)
Definition merge_tables (jira map_table : DataFrame) : Result DataFrame :=
  merged_data <- Pd.merge jira map_table "Feature" ;;
  pair <- Pd.getitem_columns merged_data ["Issue key"; "Summary"] ;;
  joined <- Pd.apply_join pair " " ;;
  Pd.assign merged_data "Summary" joined.

Definition _merge_files (w : World) (file map_file : string)
    : Result (OrError DataFrame) :=
  normalized_jira_output_result <- _normalize_jira_export_file w file ;;
  normalized_map_file_result <- _normalize_map_file w map_file ;;
  match normalized_jira_output_result, normalized_map_file_result with
  | Error e1, Error e2 =>
      Ok (Error (mkJLError (JLError_str e1 +:+ "(from Jira extraction file) and" +:+ nl +:+
                            JLError_str e2 +:+ " (from map file)")))
  | Error e1, Value _ =>
      Ok (Error (mkJLError (JLError_str e1 +:+ " (from Jira extraction file)")))
  | Value _, Error e2 =>
      Ok (Error (mkJLError (JLError_str e2 +:+ " (from map file)")))
  | Value jira, Value map_table =>
      merged_data <- merge_tables jira map_table ;;
      Ok (Value merged_data)
  end.

Definition export_columns : list string := ["Issue Type"; "Summary"; "Label"].

Definition success_message : string := "CSV file generated successfully!".

(** Returns the string of the source and the world it leaves. *)
Definition generate_csv (w : World) (jira_file map_file export_file_name : string)
    : Result (string * World) :=
  table_to_export_result <- _merge_files w jira_file map_file ;;
  let export_file_name := export_file_name +:+ ".csv" in
  match table_to_export_result with
  | Error e => Ok (message e, w)
  | Value table =>
      w' <- to_csv w table export_file_name export_columns ;;
      Ok (success_message, w')
  end.

(** [generate] of JiraLand.py; the result is the string it pops up. *)
Definition generate (w : World) (jira_file map_file destination_folder csv_file_name : string)
    : Result (string * World) :=
  if negb (String.eqb jira_file "") && negb (String.eqb map_file "") &&
     negb (String.eqb destination_folder "") && negb (String.eqb csv_file_name "")
  then
    let csv_file_path := destination_folder +:+ "/" +:+ csv_file_name in
    generate_csv w jira_file map_file csv_file_path
  else Ok ("You need to fill all the information above first!", w).

End Readers.

End FileHandler.

(** ** Sample inputs *)

Module Sample.

Import FileHandler.

(** A row of a Jira export with one extra column. *)
Definition export_row (summary key type feature sprint : string) : gmap string value :=
  {[ "Summary" := VStr summary; "Issue key" := VStr key; "Issue Type" := VStr type;
     "Custom field (Feature Link)" := VStr feature; "Sprint" := VStr sprint;
     "Status" := VStr "Open" ]}.

Definition raw_columns : list string :=
  ["Issue key"; "Summary"; "Issue Type"; "Status"; "Custom field (Feature Link)"; "Sprint"].

(** Three stories, with the Sprint values of the specification's example,
    and one task. *)
Definition export_table : DataFrame :=
  mkDataFrame raw_columns
    [(0, export_row "Login" "K-1" "Story" "F1" "PI23.1 Sprint 4");
     (1, export_row "Logout" "K-2" "Story" "F2" "PI23.2 Sprint 1");
     (2, export_row "Fix typo" "K-3" "Task" "F2" "PI23.2 Sprint 3");
     (3, export_row "Pay by card" "K-4" "Story" "F2" "PI23.2 Sprint 3")] [].

(** The same export with the task first: no story carries the label 0. *)
Definition task_first_table : DataFrame :=
  mkDataFrame raw_columns
    [(0, export_row "Fix typo" "K-3" "Task" "F2" "PI23.2 Sprint 3");
     (1, export_row "Login" "K-1" "Story" "F1" "PI23.1 Sprint 4");
     (2, export_row "Logout" "K-2" "Story" "F2" "PI23.2 Sprint 1");
     (3, export_row "Pay by card" "K-4" "Story" "F2" "PI23.2 Sprint 3")] [].

(** An export that holds no story. *)
Definition tasks_only_table : DataFrame :=
  mkDataFrame raw_columns
    [(0, export_row "Fix typo" "K-3" "Task" "F2" "PI23.2 Sprint 3")] [].

(** An export without the Sprint column. *)
Definition no_sprint_table : DataFrame :=
  mkDataFrame ["Issue key"; "Summary"; "Issue Type"; "Custom field (Feature Link)"]
    [(0, {[ "Summary" := VStr "Login"; "Issue key" := VStr "K-1";
            "Issue Type" := VStr "Story";
            "Custom field (Feature Link)" := VStr "F1" ]})] [].

Definition map_row (feature label : string) : gmap string value :=
  {[ "Feature" := VStr feature; "Label" := VStr label ]}.

(** F9 is a feature no issue links to. *)
Definition map_table : DataFrame :=
  mkDataFrame ["Feature"; "Label"]
    [(0, map_row "F1" "auth"); (1, map_row "F2" "billing"); (2, map_row "F9" "unused")] [].

(** The readers of the samples: each table stands under a name of its
    own, and other bytes do not parse. *)
Definition parse (bytes : string) : Result DataFrame :=
  if String.eqb bytes "export" then Ok export_table
  else if String.eqb bytes "task first" then Ok task_first_table
  else if String.eqb bytes "tasks only" then Ok tasks_only_table
  else if String.eqb bytes "no sprint" then Ok no_sprint_table
  else if String.eqb bytes "map" then Ok map_table
  else Raise ParserError.

Definition disk : World :=
  mkWorld {[ "jira.csv" := "export"; "task_first.csv" := "task first";
             "tasks.csv" := "tasks only"; "nosprint.xlsx" := "no sprint";
             "map.xlsx" := "map"; "notes.txt" := "hello" ]}
          (fun _ => true) nl.

Definition empty_disk : World := mkWorld ∅ (fun _ => true) nl.

(** [export_table] after the column selection. *)
Definition truncated_export : DataFrame :=
  mkDataFrame jira_columns
    (map (fun lr => (lr.1, Pd.restrict jira_columns lr.2)) (rows export_table)) [].

(** What the normalisers and the merge make of [export_table] and
    [map_table]: the one story of the latest sprint, and its label. *)
Definition normalized_export : DataFrame :=
  mkDataFrame ["Summary"; "Issue key"; "Issue Type"; "Feature"; "Sprint"]
    [(3, {[ "Summary" := VStr "Pay by card"; "Issue key" := VStr "K-4";
            "Issue Type" := VStr "Story"; "Feature" := VStr "F2";
            "Sprint" := VStr "PI23.2 Sprint 3" ]})] [].

Definition joined : DataFrame :=
  mkDataFrame ["Summary"; "Issue key"; "Issue Type"; "Feature"; "Sprint"; "Label"]
    [(0, {[ "Summary" := VStr "Pay by card"; "Issue key" := VStr "K-4";
            "Issue Type" := VStr "Story"; "Feature" := VStr "F2";
            "Sprint" := VStr "PI23.2 Sprint 3"; "Label" := VStr "billing" ]})] [].

Definition merged : DataFrame :=
  mkDataFrame ["Summary"; "Issue key"; "Issue Type"; "Feature"; "Sprint"; "Label"]
    [(0, {[ "Summary" := VStr "K-4 Pay by card"; "Issue key" := VStr "K-4";
            "Issue Type" := VStr "Story"; "Feature" := VStr "F2";
            "Sprint" := VStr "PI23.2 Sprint 3"; "Label" := VStr "billing" ]})] [].

(** The file system after a successful run. *)
Definition disk_after : World :=
  mkWorld (<["out/report.csv" :=
             "Issue Type,Summary,Label" +:+ nl +:+ "Story,K-4 Pay by card,billing" +:+ nl]>
           (files disk))
          (writable disk) (linesep disk).

(** A file of a supported type whose bytes do not parse. *)
Definition garbled_disk : World :=
  mkWorld {[ "garbled.csv" := "not a table" ]} (fun _ => true) nl.

(** An export whose one story has no Summary, and what the export
    normaliser makes of it. *)
Definition unsummarised_table : DataFrame :=
  mkDataFrame jira_columns
    [(0, {[ "Summary" := VNaN; "Issue key" := VStr "K-1"; "Issue Type" := VStr "Story";
            "Custom field (Feature Link)" := VStr "F1";
            "Sprint" := VStr "PI23.2 Sprint 3" ]})] [].

Definition normalized_unsummarised : DataFrame :=
  mkDataFrame ["Summary"; "Issue key"; "Issue Type"; "Feature"; "Sprint"]
    [(0, {[ "Summary" := VNaN; "Issue key" := VStr "K-1"; "Issue Type" := VStr "Story";
            "Feature" := VStr "F1"; "Sprint" := VStr "PI23.2 Sprint 3" ]})] [].

Definition parse_more (bytes : string) : Result DataFrame :=
  if String.eqb bytes "no summary" then Ok unsummarised_table else parse bytes.

Definition disk_more : World :=
  mkWorld {[ "nosummary.csv" := "no summary"; "map.xlsx" := "map" ]} (fun _ => true) nl.

(** A map whose one feature no issue links to, and a map whose Feature
    column was read as numbers. *)
Definition unused_map_table : DataFrame :=
  mkDataFrame ["Feature"; "Label"] [(0, map_row "F9" "unused")] [].

Definition numbered_map_table : DataFrame :=
  mkDataFrame ["Feature"; "Label"]
    [(0, {[ "Feature" := VNum 2; "Label" := VStr "billing" ]})] ["Feature"].

Definition parse_keys (bytes : string) : Result DataFrame :=
  if String.eqb bytes "unused map" then Ok unused_map_table
  else if String.eqb bytes "numbered map" then Ok numbered_map_table
  else parse bytes.

Definition disk_keys : World :=
  mkWorld {[ "jira.csv" := "export"; "map.xlsx" := "map";
             "unused.xlsx" := "unused map"; "numbered.xlsx" := "numbered map" ]}
          (fun _ => true) nl.

End Sample.

(** ** The words of the specification, for comparison *)

(** "The substring after the last '.' of the path (or the whole path if it
    contains no '.')": [ext] holds no dot and [file] is [ext] or ends in a
    dot followed by [ext]. *)
Definition after_last_dot (file ext : string) : Prop :=
  Py.contains "." ext = false /\
  (file = ext \/ exists pre, file = pre +:+ "." +:+ ext).

(** The parser behind the reader that [supported_methods] gives for a
    supported extension: [read_csv] for csv, [read_excel] for xls and xlsx. *)
Definition parser_for (parse_csv parse_excel : string -> Result DataFrame)
    (ext : string) : string -> Result DataFrame :=
  if decide (ext = "csv") then parse_csv else parse_excel.

(** The three errors a normaliser can return. *)
Definition base_error (e : JLError) : Prop :=
  e = FileHandler.unsupported_file_type \/ e = FileHandler.file_not_found \/
  e = FileHandler.columns_missing.

(** A matched pair of rows whose export row can be summarised: its Issue
    key and its Summary are strings. *)
Definition summarisable (pair : gmap string value * gmap string value) : Prop :=
  exists key summary,
    Pd.cell pair.1 "Issue key" = VStr key /\ Pd.cell pair.1 "Summary" = VStr summary.

(** A string without any of the characters 0 to 9. *)
Fixpoint no_digit (s : string) : bool :=
  match s with
  | EmptyString => true
  | String c s' => negb (Re.is_digit c) && no_digit s'
  end.

(** The Feature cells of a table, in row order. *)
Definition feature_values (df : DataFrame) : list value :=
  map (fun lr => Pd.cell lr.2 "Feature") (rows df).

(** How the assignment to the Summary column changes a row of the join:
    the label stays, Issue key and Summary are strings, and Summary becomes
    the Issue key, one space, the former Summary. *)
Definition summary_joined (before after : nat * gmap string value) : Prop :=
  after.1 = before.1 /\
  exists key summary,
    Pd.cell before.2 "Issue key" = VStr key /\
    Pd.cell before.2 "Summary" = VStr summary /\
    after.2 = <["Summary" := VStr (key +:+ " " +:+ summary)]> before.2.

(** The columns of a normalised export and of the merged table. *)
Definition normalized_columns : list string :=
  ["Summary"; "Issue key"; "Issue Type"; "Feature"; "Sprint"].

Definition merged_columns : list string :=
  ["Summary"; "Issue key"; "Issue Type"; "Feature"; "Sprint"; "Label"].

(** * Properties *)

(** Case analysis on the first call of a sequence that returned. *)
Ltac bind_case H :=
  match type of H with
  | bind ?r _ = _ =>
      let E := fresh "E" in destruct r eqn:E; [cbn [bind] in H | discriminate H]
  end.

Ltac bind_case_as H E :=
  match type of H with
  | bind ?r _ = _ => destruct r eqn:E; [cbn [bind] in H | discriminate H]
  end.


(** ** Strings *)

Lemma append_nil (b : string) : "" +:+ b = b.
Proof. reflexivity. Qed.

Lemma append_cons (x : ascii) (a b : string) : String x a +:+ b = String x (a +:+ b).
Proof. reflexivity. Qed.

Lemma append_assoc (a b c : string) : (a +:+ b) +:+ c = a +:+ b +:+ c.
Proof.
  induction a as [|x a IH]; [done|].
  rewrite !append_cons. by rewrite IH.
Qed.

Lemma prefix_app (a b : string) : String.prefix a (a +:+ b) = true.
Proof.
  induction a as [|c a IH]; [by destruct b|].
  rewrite append_cons. simpl. by destruct (ascii_dec c c).
Qed.

Lemma contains_app_l (a b : string) : Py.contains a (a +:+ b) = true.
Proof.
  generalize (prefix_app a b).
  destruct (a +:+ b); simpl; by intros ->.
Qed.

Lemma contains_app_r (a b c : string) :
  Py.contains a c = true -> Py.contains a (b +:+ c) = true.
Proof.
  intros H. induction b as [|x b IH]; [done|].
  rewrite append_cons. simpl. rewrite IH. by rewrite orb_true_r.
Qed.

Lemma split_nonempty (sep : ascii) (s : string) : Py.split sep s <> [].
Proof.
  destruct s as [|c s]; simpl; [done|].
  destruct (Ascii.eqb c sep); [done|]. by destruct (Py.split sep s).
Qed.

(** The segments of a split hold no separator, and joining them with the
    separator gives the string back. *)
Lemma split_concat (s : string) :
  String.concat "." (Py.split "." s) = s /\
  Forall (fun seg => Py.contains "." seg = false) (Py.split "." s).
Proof.
  induction s as [|c s [IH1 IH2]]; simpl.
  - split; [done|]. by repeat constructor.
  - destruct (Ascii.eqb_spec c ".") as [->|Hc].
    + pose proof (split_nonempty "." s) as Hne.
      destruct (Py.split "." s) as [|seg rest] eqn:E; [done|].
      split; [simpl in *; by rewrite IH1|]. by constructor.
    + pose proof (split_nonempty "." s) as Hne.
      destruct (Py.split "." s) as [|seg rest] eqn:E; [done|].
      apply Forall_cons in IH2 as [Hseg Hrest].
      split.
      * rewrite <- IH1. by destruct rest.
      * constructor; [|done].
        change (Py.contains "." (String c seg))
          with (String.prefix "." (String c seg) || Py.contains "." seg).
        rewrite Hseg. unfold String.prefix.
        by destruct (ascii_dec "." c) as [e|_]; [destruct Hc|].
Qed.

Lemma concat_last (l : list string) (x : string) :
  l <> [] -> String.concat "." (l ++ [x]) = String.concat "." l +:+ "." +:+ x.
Proof.
  induction l as [|a l IH]; [done|]. intros _.
  destruct l as [|b l]; [done|].
  change (String.concat "." ((a :: b :: l) ++ [x]))
    with (a +:+ "." +:+ String.concat "." ((b :: l) ++ [x])).
  rewrite IH by done.
  change (String.concat "." (a :: b :: l)) with (a +:+ "." +:+ String.concat "." (b :: l)).
  by rewrite !append_assoc.
Qed.

(** [file.split(".")[-1]] is the part of [file] after its last dot. *)
Lemma split_last_spec (file : string) :
  exists ext, Py.list_last (Py.split "." file) = Ok ext /\ after_last_dot file ext.
Proof.
  destruct (split_concat file) as [Hcat Hall].
  pose proof (split_nonempty "." file) as Hne.
  destruct (Py.split "." file) as [|seg rest _] using rev_ind; [done|].
  exists seg. unfold Py.list_last. rewrite last_snoc. split; [done|].
  apply Forall_app in Hall as [_ Hseg]. apply Forall_cons in Hseg as [Hseg _].
  split; [exact Hseg|].
  destruct rest as [|a rest]; [left; by rewrite <- Hcat|].
  right. exists (String.concat "." (a :: rest)).
  rewrite <- Hcat. by apply concat_last.
Qed.

(** The part after the last dot is unique. *)
Lemma after_last_dot_unique (file e1 e2 : string) :
  after_last_dot file e1 -> after_last_dot file e2 -> e1 = e2.
Proof.
  assert (Hdot : forall pre e, Py.contains "." (pre +:+ "." +:+ e) = true).
  { intros pre e. apply contains_app_r, contains_app_l. }
  assert (Hdot' : forall pre e, Py.contains "." (pre +:+ String "." e) = true).
  { intros pre e. apply (Hdot pre e). }
  intros [H1 [->|[p1 ->]]] [H2 [E|[p2 E]]].
  - done.
  - subst e1. by rewrite Hdot in H1.
  - subst e2. by rewrite Hdot in H2.
  - revert p2 E. induction p1 as [|c p1 IH]; intros [|c' p2] E;
      rewrite ?append_cons, ?append_nil in E.
    + by injection E.
    + injection E as _ E. subst e1. by rewrite Hdot' in H1.
    + injection E as _ E. subst e2. by rewrite Hdot' in H2.
    + injection E as _ E. by apply (IH p2).
Qed.

Lemma split_last_of (file ext : string) :
  after_last_dot file ext -> Py.list_last (Py.split "." file) = Ok ext.
Proof.
  intros H. destruct (split_last_spec file) as (ext' & Hl & H').
  by rewrite (after_last_dot_unique _ _ _ H H').
Qed.

Lemma supported_cases (ext : string) :
  ext ∈ FileHandler.supported_file_types <-> ext = "xls" \/ ext = "xlsx" \/ ext = "csv".
Proof.
  unfold FileHandler.supported_file_types.
  rewrite !elem_of_union, !elem_of_singleton. tauto.
Qed.

Lemma has_columns_false (cols : list string) (df : DataFrame) :
  (exists c, c ∈ cols /\ c ∉ columns df) -> Pd.has_columns cols df = false.
Proof.
  intros (c & Hc & Hn). unfold Pd.has_columns.
  apply not_true_is_false. intros Hall.
  rewrite forallb_forall in Hall.
  apply list_elem_of_In, Hall, bool_decide_eq_true in Hc. done.
Qed.

(** ** The loader and the normalisers on errors *)

Section Loader.

Variable parse_csv : string -> Result DataFrame.
Variable parse_excel : string -> Result DataFrame.

Local Abbreviation read_csv := (FileHandler.read_csv parse_csv).
Local Abbreviation read_excel := (FileHandler.read_excel parse_excel).
Local Abbreviation _load_data := (FileHandler._load_data parse_csv parse_excel).
Local Abbreviation _normalize_jira_export_file :=
  (FileHandler._normalize_jira_export_file parse_csv parse_excel).
Local Abbreviation _normalize_map_file := (FileHandler._normalize_map_file parse_csv parse_excel).

Lemma check_supported (file ext : string) :
  after_last_dot file ext -> ext ∈ FileHandler.supported_file_types ->
  FileHandler._check_file_extension file = Ok (Value ext).
Proof.
  intros Hext Hin. unfold FileHandler._check_file_extension.
  rewrite (split_last_of _ _ Hext). simpl. by rewrite bool_decide_eq_true_2.
Qed.

Lemma check_unsupported (file ext : string) :
  after_last_dot file ext -> ext ∉ FileHandler.supported_file_types ->
  FileHandler._check_file_extension file = Ok (Error FileHandler.unsupported_file_type).
Proof.
  intros Hext Hin. unfold FileHandler._check_file_extension.
  rewrite (split_last_of _ _ Hext). simpl. by rewrite bool_decide_eq_false_2.
Qed.

Lemma supported_methods_lookup (ext : string) :
  ext ∈ FileHandler.supported_file_types ->
  FileHandler.supported_methods parse_csv parse_excel !! ext =
  Some (if decide (ext = "csv") then read_csv else read_excel).
Proof.
  intros [->|[->| ->]]%supported_cases; unfold FileHandler.supported_methods.
  - by rewrite lookup_insert_eq.
  - rewrite lookup_insert_ne by done. by rewrite lookup_insert_eq.
  - rewrite !lookup_insert_ne by done. by rewrite lookup_singleton_eq.
Qed.

Lemma load_supported (w : World) (file ext : string) :
  after_last_dot file ext -> ext ∈ FileHandler.supported_file_types ->
  _load_data w file =
  match (if decide (ext = "csv") then read_csv else read_excel) w file with
  | Raise FileNotFoundError => Ok (Error FileHandler.file_not_found)
  | Raise e => Raise e
  | Ok raw_data => Ok (Value raw_data)
  end.
Proof.
  intros Hext Hin. unfold FileHandler._load_data.
  rewrite (check_supported _ _ Hext Hin). simpl.
  by rewrite (supported_methods_lookup _ Hin).
Qed.

Lemma load_unsupported (w : World) (file ext : string) :
  after_last_dot file ext -> ext ∉ FileHandler.supported_file_types ->
  _load_data w file = Ok (Error FileHandler.unsupported_file_type).
Proof.
  intros Hext Hin. unfold FileHandler._load_data.
  by rewrite (check_unsupported _ _ Hext Hin).
Qed.

(** C10.  The extension the check looks at is the part of the path after
    its last dot, the whole path when it has no dot.  When it is one of xls,
    xlsx and csv the check returns it and the loader's result is that of the
    reader the table gives for it (read_csv for csv, read_excel for the two
    others); otherwise check and loader return the unsupported-type error,
    whatever the file system holds: nothing is read. *)
Theorem check_file_extension_last_segment (file ext : string) :
  after_last_dot file ext ->
  Py.list_last (Py.split "." file) = Ok ext /\
  (ext ∈ FileHandler.supported_file_types ->
     FileHandler._check_file_extension file = Ok (Value ext) /\
     forall w, _load_data w file =
       match (if decide (ext = "csv") then read_csv else read_excel) w file with
       | Raise FileNotFoundError => Ok (Error FileHandler.file_not_found)
       | Raise e => Raise e
       | Ok raw_data => Ok (Value raw_data)
       end) /\
  (ext ∉ FileHandler.supported_file_types ->
     FileHandler._check_file_extension file =
       Ok (Error FileHandler.unsupported_file_type) /\
     forall w, _load_data w file = Ok (Error FileHandler.unsupported_file_type)).
Proof.
  intros Hext. split; [by apply split_last_of|]. split; intros Hin.
  - split; [by apply check_supported|]. intros w. by apply load_supported.
  - split; [by apply (check_unsupported file ext)|].
    intros w. by apply (load_unsupported w file ext).
Qed.

Lemma load_missing_supported (w : World) (file ext : string) :
  after_last_dot file ext -> ext ∈ FileHandler.supported_file_types ->
  files w !! file = None ->
  _load_data w file = Ok (Error FileHandler.file_not_found).
Proof.
  intros Hext Hin Hnone. rewrite (load_supported w _ _ Hext Hin).
  unfold FileHandler.read_csv, FileHandler.read_excel.
  destruct (decide (ext = "csv")); by rewrite Hnone.
Qed.

Lemma normalizers_on_error (w : World) (file : string) (e : JLError) :
  _load_data w file = Ok (Error e) ->
  _normalize_jira_export_file w file = Ok (Error e) /\
  _normalize_map_file w file = Ok (Error e).
Proof.
  intros H.
  unfold FileHandler._normalize_jira_export_file, FileHandler._normalize_map_file.
  by rewrite H.
Qed.

(** C2, as the code has it.  For a path no file stands under: the loader
    returns the error "File not found!" when the part of the path after its
    last dot is xls, xlsx or csv, and the unsupported-type error when it is
    anything else. *)
Theorem load_missing_file (w : World) (file ext : string) :
  after_last_dot file ext ->
  files w !! file = None ->
  (ext ∈ FileHandler.supported_file_types ->
     _load_data w file = Ok (Error (mkJLError "File not found!"))) /\
  (ext ∉ FileHandler.supported_file_types ->
     _load_data w file = Ok (Error FileHandler.unsupported_file_type)).
Proof.
  intros Hext Hnone. split; intros Hin.
  - by apply (load_missing_supported w file ext).
  - by apply (load_unsupported w file ext).
Qed.

(** C9.  An error of the loader is what each normaliser returns, the same
    error and nothing else. *)
Theorem normalizers_pass_loader_error (w : World) (file : string) (e : JLError) :
  _load_data w file = Ok (Error e) ->
  _normalize_jira_export_file w file = Ok (Error e) /\
  _normalize_map_file w file = Ok (Error e).
Proof. apply normalizers_on_error. Qed.

(** C4.  On a loaded table that lacks one of Summary, Issue key, Issue
    Type, Custom field (Feature Link) and Sprint, the export normaliser
    returns the missing-columns error, and so does the map normaliser on a
    loaded table that lacks Feature or Label: the same message, and no table. *)
Theorem normalizers_missing_column (w : World) (file : string) (raw : DataFrame) :
  _load_data w file = Ok (Value raw) ->
  ((exists c, c ∈ ["Summary"; "Issue key"; "Issue Type";
                   "Custom field (Feature Link)"; "Sprint"] /\ c ∉ columns raw) ->
   _normalize_jira_export_file w file =
     Ok (Error (mkJLError ("One or more table columns missing." +:+ nl +:+
                           "Please check if table is in expected format.")))) /\
  ((exists c, c ∈ ["Feature"; "Label"] /\ c ∉ columns raw) ->
   _normalize_map_file w file =
     Ok (Error (mkJLError ("One or more table columns missing." +:+ nl +:+
                           "Please check if table is in expected format.")))).
Proof.
  intros H.
  unfold FileHandler._normalize_jira_export_file, FileHandler._normalize_map_file.
  rewrite H. unfold bind, Pd.getitem_columns.
  unfold FileHandler.jira_columns, FileHandler.map_columns.
  split; intros Hc; by rewrite (has_columns_false _ _ Hc).
Qed.

End Loader.

(** ** Shapes of the intermediate tables *)

Lemma getitem_columns_ok (df t : DataFrame) (cols : list string) :
  Pd.getitem_columns df cols = Ok t ->
  Pd.has_columns cols df = true /\
  t = mkDataFrame cols (map (fun lr => (lr.1, Pd.restrict cols lr.2)) (rows df))
                  (filter (fun c => c ∈ cols) (numeric df)).
Proof.
  unfold Pd.getitem_columns. destruct (Pd.has_columns cols df); [|done].
  intros [= <-]. done.
Qed.

Lemma latest_sprint_rows_columns (truncated t : DataFrame) :
  columns truncated = FileHandler.jira_columns ->
  FileHandler.latest_sprint_rows truncated = Ok t ->
  columns t = normalized_columns.
Proof.
  intros Hcols H. unfold FileHandler.latest_sprint_rows in H.
  repeat bind_case H. injection H as <-. simpl. by rewrite Hcols.
Qed.

Section Merger.

Variable parse_csv : string -> Result DataFrame.
Variable parse_excel : string -> Result DataFrame.

Local Abbreviation _load_data := (FileHandler._load_data parse_csv parse_excel).
Local Abbreviation _normalize_jira_export_file :=
  (FileHandler._normalize_jira_export_file parse_csv parse_excel).
Local Abbreviation _normalize_map_file :=
  (FileHandler._normalize_map_file parse_csv parse_excel).
Local Abbreviation _merge_files := (FileHandler._merge_files parse_csv parse_excel).
Local Abbreviation generate_csv := (FileHandler.generate_csv parse_csv parse_excel).

Lemma normalize_jira_value (w : World) (file : string) (t : DataFrame) :
  _normalize_jira_export_file w file = Ok (Value t) ->
  exists raw truncated,
    _load_data w file = Ok (Value raw) /\
    Pd.getitem_columns raw FileHandler.jira_columns = Ok truncated /\
    FileHandler.latest_sprint_rows truncated = Ok t.
Proof.
  unfold FileHandler._normalize_jira_export_file. intros H.
  bind_case H. destruct a as [raw|e]; [|done].
  destruct (Pd.getitem_columns raw FileHandler.jira_columns) as [tr|[]] eqn:G;
    try done.
  bind_case H. injection H as ->. by exists raw, tr.
Qed.

Lemma normalize_map_value (w : World) (file : string) (t : DataFrame) :
  _normalize_map_file w file = Ok (Value t) ->
  exists raw,
    _load_data w file = Ok (Value raw) /\
    Pd.getitem_columns raw FileHandler.map_columns = Ok t.
Proof.
  unfold FileHandler._normalize_map_file. intros H.
  bind_case H. destruct a as [raw|e]; [|done].
  destruct (Pd.getitem_columns raw FileHandler.map_columns) as [tr|[]] eqn:G;
    try done.
  injection H as ->. by exists raw.
Qed.

Lemma normalize_jira_columns (w : World) (file : string) (t : DataFrame) :
  _normalize_jira_export_file w file = Ok (Value t) -> columns t = normalized_columns.
Proof.
  intros (raw & tr & _ & G & L)%normalize_jira_value.
  apply getitem_columns_ok in G as [_ ->].
  eapply latest_sprint_rows_columns; [|exact L]. done.
Qed.

Lemma normalize_map_columns (w : World) (file : string) (t : DataFrame) :
  _normalize_map_file w file = Ok (Value t) -> columns t = FileHandler.map_columns.
Proof.
  intros (raw & _ & G)%normalize_map_value.
  by apply getitem_columns_ok in G as [_ ->].
Qed.


End Merger.

(** ** The join *)

Lemma mapM_Forall2 {A B : Type} (f : A -> Result B) (l : list A) (bs : list B) :
  mapM f l = Ok bs -> Forall2 (fun a b => f a = Ok b) l bs.
Proof.
  revert bs. induction l as [|a l IH]; intros bs H; simpl in H.
  - injection H as <-. constructor.
  - bind_case H. bind_case H. injection H as <-. constructor; [done|]. by apply IH.
Qed.

Lemma merge_columns_normalized :
  Pd.merge_columns "Feature" normalized_columns FileHandler.map_columns = merged_columns.
Proof. vm_compute. reflexivity. Qed.

Lemma merge_row_normalized (l r : gmap string value) :
  Pd.merge_row "Feature" normalized_columns FileHandler.map_columns l r =
  <["Summary" := Pd.cell l "Summary"]>
    (<["Issue key" := Pd.cell l "Issue key"]>
      (<["Issue Type" := Pd.cell l "Issue Type"]>
        (<["Feature" := Pd.cell l "Feature"]>
          (<["Sprint" := Pd.cell l "Sprint"]>
            (<["Label" := Pd.cell r "Label"]> ∅))))).
Proof.
  unfold Pd.merge_row. rewrite merge_columns_normalized.
  replace (filter (fun c => c ≠ "Feature") FileHandler.map_columns) with ["Label"]
    by (vm_compute; reflexivity).
  reflexivity.
Qed.

Lemma merge_row_cells (l r : gmap string value) :
  let row := Pd.merge_row "Feature" normalized_columns FileHandler.map_columns l r in
  Pd.cell row "Summary" = Pd.cell l "Summary" /\
  Pd.cell row "Issue key" = Pd.cell l "Issue key" /\
  Pd.cell row "Issue Type" = Pd.cell l "Issue Type" /\
  Pd.cell row "Feature" = Pd.cell l "Feature" /\
  Pd.cell row "Label" = Pd.cell r "Label".
Proof.
  intros row. unfold row. rewrite merge_row_normalized.
  unfold Pd.cell at 1 3 5 7 9.
  repeat split;
    repeat (rewrite lookup_insert_ne by (intros [=]));
    by rewrite lookup_insert_eq.
Qed.

Lemma elem_of_join_pairs (key : string) (ls rs : list (nat * gmap string value))
    (l r : gmap string value) :
  (l, r) ∈ Pd.join_pairs key ls rs <->
  exists i j, (i, l) ∈ ls /\ (j, r) ∈ rs /\ Pd.cell l key = Pd.cell r key.
Proof.
  unfold Pd.join_pairs. rewrite list_elem_of_bind. split.
  - intros ([i l'] & Hin & Hl). rewrite list_elem_of_bind in Hin.
    destruct Hin as ([j r'] & Hin & Hr). apply list_elem_of_singleton in Hin.
    injection Hin as -> ->. apply list_elem_of_filter in Hr as [Heq Hr].
    by exists i, j.
  - intros (i & j & Hl & Hr & Heq). exists (i, l). split; [|done].
    rewrite list_elem_of_bind. exists (j, r). split; [by apply list_elem_of_singleton|].
    by apply list_elem_of_filter.
Qed.

Lemma relabel_fst (rs : list (gmap string value)) :
  map fst (Pd.relabel rs) = seq 0 (length rs).
Proof.
  unfold Pd.relabel. change (map fst) with (fmap (M:=list) (@fst nat (gmap string value))).
  rewrite fmap_imap. unfold compose. simpl.
  rewrite imap_seq_0. by rewrite list_fmap_id.
Qed.

Lemma elem_of_relabel (rs : list (gmap string value)) (lr : nat * gmap string value) :
  lr ∈ Pd.relabel rs -> lr.2 ∈ rs.
Proof.
  unfold Pd.relabel. intros (i & y & -> & Hy)%elem_of_lookup_imap.
  simpl. by eapply list_elem_of_lookup_2.
Qed.

Lemma relabel_elem_of (rs : list (gmap string value)) (r : gmap string value) :
  r ∈ rs -> exists i, (i, r) ∈ Pd.relabel rs.
Proof.
  intros (i & Hi)%list_elem_of_lookup_1. exists i.
  unfold Pd.relabel. apply elem_of_lookup_imap. by exists i, r.
Qed.

Lemma restrict_lookup (cols : list string) (r : gmap string value) (c : string) :
  c ∈ cols -> Pd.restrict cols r !! c = r !! c.
Proof.
  intros Hc. unfold Pd.restrict. destruct (r !! c) as [v|] eqn:E.
  - by apply map_lookup_filter_Some_2.
  - apply map_lookup_filter_None_2. by left.
Qed.

Lemma restrict_cell (cols : list string) (r : gmap string value) (c : string) :
  c ∈ cols -> Pd.cell (Pd.restrict cols r) c = Pd.cell r c.
Proof. intros Hc. unfold Pd.cell. by rewrite restrict_lookup. Qed.

Lemma str_join_two (a b : value) (s : string) :
  Pd.str_join " " [a; b] = Ok s ->
  exists key summary, a = VStr key /\ b = VStr summary /\ s = key +:+ " " +:+ summary.
Proof.
  destruct a as [k| |], b as [su| |]; simpl; try discriminate.
  intros [= <-]. by exists k, su.
Qed.

Lemma Forall2_elem_of_l {A B : Type} (P : A -> B -> Prop) (l : list A) (k : list B) (a : A) :
  Forall2 P l k -> a ∈ l -> exists b, b ∈ k /\ P a b.
Proof.
  induction 1 as [|x y l k Hxy _ IH]; [by intros ?%elem_of_nil|].
  intros [->|Hin]%elem_of_cons.
  - exists y. split; [left|done].
  - destruct (IH Hin) as (b & Hb & Hab). exists b. split; [by right|done].
Qed.

Lemma Forall2_elem_of_r {A B : Type} (P : A -> B -> Prop) (l : list A) (k : list B) (b : B) :
  Forall2 P l k -> b ∈ k -> exists a, a ∈ l /\ P a b.
Proof.
  induction 1 as [|x y l k Hxy _ IH]; [by intros ?%elem_of_nil|].
  intros [->|Hin]%elem_of_cons.
  - exists x. split; [left|done].
  - destruct (IH Hin) as (a & Ha & Hab). exists a. split; [by right|done].
Qed.

Lemma find_label (its : list (nat * value)) (k : nat) (v : value) :
  NoDup (map fst its) -> (k, v) ∈ its ->
  find (fun lv => bool_decide (lv.1 = k)) its = Some (k, v).
Proof.
  induction its as [|[k' v'] its IH]; [by intros _ ?%elem_of_nil|].
  intros [Hk Hnd]%NoDup_cons [Heq|Hin]%elem_of_cons; simpl.
  - injection Heq as <- <-. by rewrite bool_decide_eq_true_2.
  - rewrite bool_decide_eq_false_2; [by apply IH|].
    simpl. intros ->. apply Hk.
    change (map fst its) with (fst <$> its). apply list_elem_of_fmap. by exists (k, v).
Qed.

Lemma merge_normalized (jira map_table : DataFrame) :
  columns jira = normalized_columns ->
  columns map_table = FileHandler.map_columns ->
  Pd.merge jira map_table "Feature" =
  if Pd.keys_clash jira map_table "Feature" then Raise ValueError
  else
    Ok (mkDataFrame merged_columns
          (Pd.relabel
             (map (fun lr => Pd.merge_row "Feature" normalized_columns
                               FileHandler.map_columns lr.1 lr.2)
                  (Pd.join_pairs "Feature" (rows jira) (rows map_table))))
          (Pd.merge_numeric "Feature" jira map_table)).
Proof.
  intros H1 H2. unfold Pd.merge. rewrite H1, H2, merge_columns_normalized.
  assert (C : bool_decide ("Feature" ∈ normalized_columns) &&
              bool_decide ("Feature" ∈ FileHandler.map_columns) = true)
    by (vm_compute; reflexivity).
  by rewrite C.
Qed.

(** On a table with a row [apply] returns a series, one cell per row. *)
Lemma apply_join_series (df : DataFrame) (sep : string) (a : Applied) :
  rows df <> [] ->
  Pd.apply_join df sep = Ok a ->
  exists its,
    mapM (fun lr => s <- Pd.str_join sep (map (Pd.cell lr.2) (columns df)) ;;
                    Ok (lr.1, VStr s)) (rows df) = Ok its /\
    a = AppliedSeries (mkSeries its).
Proof.
  unfold Pd.apply_join. intros Hne H. destruct (rows df) as [|lr rs] eqn:R; [done|].
  bind_case H. injection H as <-. by eexists.
Qed.

(** On a table without rows that has a column [apply] returns the table. *)
Lemma apply_join_empty (df : DataFrame) (sep : string) :
  rows df = [] -> columns df <> [] ->
  Pd.apply_join df sep = Ok (AppliedFrame df).
Proof.
  unfold Pd.apply_join. intros -> Hc. by destruct (columns df).
Qed.

Lemma mapM_labels (rs : list (nat * gmap string value)) (its : list (nat * value))
    (f : gmap string value -> Result string) :
  mapM (fun lr => s <- f lr.2 ;; Ok (lr.1, VStr s)) rs = Ok its ->
  map fst its = map fst rs.
Proof.
  intros E. apply mapM_Forall2 in E. induction E as [|lr lv l k H _ IH]; [done|].
  simpl. rewrite IH. f_equal. bind_case H. by injection H as <-.
Qed.

(** What [merge_tables] returns on two normalised tables: the join, with
    Summary rewritten row by row. *)
Lemma merge_tables_value (jira map_table merged : DataFrame) :
  columns jira = normalized_columns ->
  columns map_table = FileHandler.map_columns ->
  FileHandler.merge_tables jira map_table = Ok merged ->
  exists joined,
    Pd.merge jira map_table "Feature" = Ok joined /\
    rows joined =
      Pd.relabel
        (map (fun lr => Pd.merge_row "Feature" normalized_columns
                          FileHandler.map_columns lr.1 lr.2)
             (Pd.join_pairs "Feature" (rows jira) (rows map_table))) /\
    columns merged = merged_columns /\
    Forall2 summary_joined (rows joined) (rows merged).
Proof.
  intros H1 H2 H. unfold FileHandler.merge_tables in H.
  pose proof (merge_normalized _ _ H1 H2) as Hm.
  destruct (Pd.keys_clash jira map_table "Feature");
    [by rewrite Hm in H|].
  rewrite Hm in H. cbn [bind] in H.
  eexists. split; [exact Hm|]. split; [done|].
  set (joined := mkDataFrame _ _ _) in *.
  bind_case_as H G. apply getitem_columns_ok in G as [_ ->].
  bind_case_as H J.
  destruct (decide (rows joined = [])) as [R|R].
  { rewrite apply_join_empty in J;
      [|exact (f_equal (map _) R)|intros [=]].
    injection J as <-. discriminate H. }
  apply apply_join_series in J as (its & E & ->);
    [|intros Hnil; apply R; exact (fmap_nil_inv _ _ Hnil)].
  cbn [Pd.assign] in H. injection H as <-.
  split; [by vm_compute|].
  pose proof (mapM_labels _ _ (fun r => Pd.str_join " " (map (Pd.cell r) ["Issue key"; "Summary"])) E)
    as Hlab.
  apply mapM_Forall2 in E. simpl in E, Hlab |- *.
  apply Forall2_fmap_r, Forall_Forall2_diag, Forall_forall.
  intros lr Hlr.
  assert (Hin : (lr.1, Pd.restrict ["Issue key"; "Summary"] lr.2) ∈
                map (fun lr => (lr.1, Pd.restrict ["Issue key"; "Summary"] lr.2))
                    (rows joined)).
  { change (map ?f ?l) with (f <$> l). apply list_elem_of_fmap. by exists lr. }
  destruct (Forall2_elem_of_l _ _ _ _ E Hin) as ([k v] & Hb & Hf).
  simpl in Hf. bind_case_as Hf E0. injection Hf as <- <-.
  rewrite !restrict_cell in E0 by (repeat constructor).
  apply str_join_two in E0 as (key & summary & Hk & Hs & ->).
  split; [done|]. exists key, summary. split; [done|]. split; [done|]. simpl.
  rewrite (find_label _ lr.1 (VStr (key +:+ " " +:+ summary))); [done| |done].
  rewrite Hlab. rewrite map_map. simpl.
  change (map (fun x => x.1) (rows joined)) with (map fst (rows joined)).
  unfold joined. simpl. rewrite relabel_fst. apply NoDup_seq.
Qed.

Lemma cell_insert_eq (m : gmap string value) (c : string) (v : value) :
  Pd.cell (<[c := v]> m) c = v.
Proof. unfold Pd.cell. by rewrite lookup_insert_eq. Qed.

Lemma cell_insert_ne (m : gmap string value) (c c' : string) (v : value) :
  c <> c' -> Pd.cell (<[c := v]> m) c' = Pd.cell m c'.
Proof. intros H. unfold Pd.cell. by rewrite lookup_insert_ne. Qed.

Section MergedRows.

Variables jira map_table joined merged : DataFrame.

Hypothesis Hrows :
  rows joined =
    Pd.relabel
      (map (fun lr => Pd.merge_row "Feature" normalized_columns
                        FileHandler.map_columns lr.1 lr.2)
           (Pd.join_pairs "Feature" (rows jira) (rows map_table))).
Hypothesis Hsummary : Forall2 summary_joined (rows joined) (rows merged).

(** A merged row comes from a row of each table, with equal Feature. *)
Lemma merged_row_origin (after : nat * gmap string value) :
  after ∈ rows merged ->
  exists l r key summary,
    l ∈ rows jira /\ r ∈ rows map_table /\
    Pd.cell l.2 "Feature" = Pd.cell r.2 "Feature" /\
    Pd.cell after.2 "Feature" = Pd.cell l.2 "Feature" /\
    Pd.cell l.2 "Issue key" = VStr key /\
    Pd.cell l.2 "Summary" = VStr summary /\
    Pd.cell after.2 "Summary" = VStr (key +:+ " " +:+ summary).
Proof.
  intros Hafter.
  destruct (Forall2_elem_of_r _ _ _ _ Hsummary Hafter)
    as (before & Hbefore & Hlab & key & summary & Hk & Hs & Hrow).
  rewrite Hrows in Hbefore. apply elem_of_relabel in Hbefore.
  change (map ?f ?l) with (f <$> l) in Hbefore.
  apply list_elem_of_fmap in Hbefore as ([l r] & Hb & Hpair).
  apply elem_of_join_pairs in Hpair as (i & j & Hl & Hr & Heq).
  destruct (merge_row_cells l r) as (Es & Ek & _ & Ef & _).
  rewrite Hb in Hk, Hs, Hrow. simpl in Hk, Hs, Hrow.
  exists (i, l), (j, r), key, summary. simpl. rewrite Hrow.
  rewrite cell_insert_eq, cell_insert_ne by (intros [=]).
  rewrite <- Es, <- Ek, Ef. done.
Qed.

(** Two rows with equal Feature give a merged row. *)
Lemma merged_row_exists (l r : nat * gmap string value) :
  l ∈ rows jira -> r ∈ rows map_table ->
  Pd.cell l.2 "Feature" = Pd.cell r.2 "Feature" ->
  exists after, after ∈ rows merged /\ Pd.cell after.2 "Feature" = Pd.cell l.2 "Feature".
Proof.
  destruct l as [i l], r as [j r]. simpl. intros Hl Hr Heq.
  assert (Hpair : (l, r) ∈ Pd.join_pairs "Feature" (rows jira) (rows map_table)).
  { apply elem_of_join_pairs. by exists i, j. }
  apply (list_elem_of_fmap_2
    (fun lr => Pd.merge_row "Feature" normalized_columns FileHandler.map_columns
                 lr.1 lr.2)) in Hpair.
  apply relabel_elem_of in Hpair as (n & Hn).
  change (fmap ?f ?l) with (map f l) in Hn. rewrite <- Hrows in Hn.
  destruct (Forall2_elem_of_l _ _ _ _ Hsummary Hn)
    as (after & Hafter & Hlab & key & summary & _ & _ & Hrow).
  exists after. split; [done|]. rewrite Hrow. simpl.
  rewrite cell_insert_ne by (intros [=]).
  by destruct (merge_row_cells l r) as (_ & _ & _ & -> & _).
Qed.

End MergedRows.

(** ** The merged table and its export *)

Section Exporter.

Variable parse_csv : string -> Result DataFrame.
Variable parse_excel : string -> Result DataFrame.

Local Abbreviation _normalize_jira_export_file :=
  (FileHandler._normalize_jira_export_file parse_csv parse_excel).
Local Abbreviation _normalize_map_file :=
  (FileHandler._normalize_map_file parse_csv parse_excel).
Local Abbreviation _merge_files := (FileHandler._merge_files parse_csv parse_excel).
Local Abbreviation generate_csv := (FileHandler.generate_csv parse_csv parse_excel).

Lemma merge_files_value (w : World) (file map_file : string) (merged : DataFrame) :
  _merge_files w file map_file = Ok (Value merged) ->
  exists jira map_table,
    _normalize_jira_export_file w file = Ok (Value jira) /\
    _normalize_map_file w map_file = Ok (Value map_table) /\
    columns jira = normalized_columns /\
    columns map_table = FileHandler.map_columns /\
    FileHandler.merge_tables jira map_table = Ok merged.
Proof.
  unfold FileHandler._merge_files. intros H.
  bind_case_as H N1. bind_case_as H N2.
  destruct a as [jira|e1], a0 as [mp|e2]; try discriminate H.
  bind_case_as H M. injection H as ->.
  exists jira, mp. repeat split; try done.
  - by apply (normalize_jira_columns parse_csv parse_excel w file).
  - by apply (normalize_map_columns parse_csv parse_excel w map_file).
Qed.

(** C5.  The merge is an inner join on Feature: a value is the Feature of
    a row of the merged table exactly when it is the Feature of a row of
    the normalised export and of a row of the normalised map; so a value
    found on one side only is the Feature of no merged row. *)
Theorem merge_is_inner_join (w : World) (file map_file : string)
    (jira map_table merged : DataFrame) :
  _normalize_jira_export_file w file = Ok (Value jira) ->
  _normalize_map_file w map_file = Ok (Value map_table) ->
  _merge_files w file map_file = Ok (Value merged) ->
  (forall v, v ∈ feature_values merged <->
             (v ∈ feature_values jira /\ v ∈ feature_values map_table)) /\
  (forall v,
     (v ∈ feature_values jira /\ v ∉ feature_values map_table) \/
     ((v ∉ feature_values jira) /\ v ∈ feature_values map_table) ->
     forall lr, lr ∈ rows merged -> Pd.cell lr.2 "Feature" <> v).
Proof.
  intros N1 N2 H.
  destruct (merge_files_value _ _ _ _ H) as (jira' & mp' & N1' & N2' & C1 & C2 & M).
  rewrite N1 in N1'. rewrite N2 in N2'. injection N1' as <-. injection N2' as <-.
  destruct (merge_tables_value _ _ _ C1 C2 M) as (joined & _ & Hrows & _ & HF).
  assert (Hiff : forall v, v ∈ feature_values merged <->
             (v ∈ feature_values jira /\ v ∈ feature_values map_table)).
  { intros v. unfold feature_values.
    change (map ?f ?l) with (f <$> l). rewrite !list_elem_of_fmap. split.
    - intros (after & -> & Hafter).
      destruct (merged_row_origin _ _ _ _ Hrows HF _ Hafter)
        as (l & r & _ & _ & Hl & Hr & Heq & Hf & _).
      split; [by exists l|]. exists r. by rewrite Hf, Heq.
    - intros [(l & -> & Hl) (r & Heq & Hr)].
      destruct (merged_row_exists _ _ _ _ Hrows HF l r Hl Hr Heq) as (after & Ha & Hf).
      by exists after. }
  split; [exact Hiff|].
  intros v Hone lr Hlr Hv.
  assert (Hin : v ∈ feature_values merged).
  { unfold feature_values. change (map ?f ?l) with (f <$> l).
    apply list_elem_of_fmap. by exists lr. }
  apply Hiff in Hin. tauto.
Qed.

(** C6.  Every row of the merged table is a row of the join with its
    Summary replaced by the Issue key of that row, one space, and the
    Summary that row had; nothing else in the row changes. *)
Theorem merged_summary_is_key_space_summary (w : World) (file map_file : string)
    (merged : DataFrame) :
  _merge_files w file map_file = Ok (Value merged) ->
  exists jira map_table joined,
    _normalize_jira_export_file w file = Ok (Value jira) /\
    _normalize_map_file w map_file = Ok (Value map_table) /\
    Pd.merge jira map_table "Feature" = Ok joined /\
    Forall2 summary_joined (rows joined) (rows merged) /\
    forall lr, lr ∈ rows merged ->
      exists key summary l r,
        l ∈ rows jira /\ r ∈ rows map_table /\
        Pd.cell l.2 "Issue key" = VStr key /\
        Pd.cell l.2 "Summary" = VStr summary /\
        Pd.cell lr.2 "Summary" = VStr (key +:+ " " +:+ summary).
Proof.
  intros H.
  destruct (merge_files_value _ _ _ _ H) as (jira & mp & N1 & N2 & C1 & C2 & M).
  destruct (merge_tables_value _ _ _ C1 C2 M) as (joined & J & Hrows & _ & HF).
  exists jira, mp, joined. repeat split; try done.
  intros after Hafter.
  destruct (merged_row_origin _ _ _ _ Hrows HF _ Hafter)
    as (l & r & key & summary & Hl & Hr & _ & _ & Hk & Hs & Hsum).
  by exists key, summary, l, r.
Qed.

End Exporter.

Lemma csv_text_export (sep : string) (df : DataFrame) :
  Csv.text sep df FileHandler.export_columns =
  "Issue Type,Summary,Label" +:+ sep +:+
  String.concat ""
    (map (fun lr => String.concat ","
                      [Csv.render (Pd.cell lr.2 "Issue Type");
                       Csv.render (Pd.cell lr.2 "Summary");
                       Csv.render (Pd.cell lr.2 "Label")] +:+ sep)
         (rows df)).
Proof.
  unfold Csv.text, Csv.line.
  replace (String.concat "," (map Csv.field FileHandler.export_columns))
    with "Issue Type,Summary,Label" by (vm_compute; reflexivity).
  by rewrite append_assoc.
Qed.

Section CsvExport.

Variable parse_csv : string -> Result DataFrame.
Variable parse_excel : string -> Result DataFrame.

Local Abbreviation _merge_files := (FileHandler._merge_files parse_csv parse_excel).
Local Abbreviation generate_csv := (FileHandler.generate_csv parse_csv parse_excel).

Lemma merge_files_columns (w : World) (file map_file : string) (merged : DataFrame) :
  _merge_files w file map_file = Ok (Value merged) -> columns merged = merged_columns.
Proof.
  intros H.
  destruct (merge_files_value _ _ _ _ _ _ H) as (jira & mp & _ & _ & C1 & C2 & M).
  by destruct (merge_tables_value _ _ _ C1 C2 M) as (_ & _ & _ & ? & _).
Qed.

(** C8.  When the merge gives a table and a file can be created under the
    output name followed by ".csv", [generate_csv] returns "CSV file
    generated successfully!" and leaves under that name the header line
    Issue Type,Summary,Label and, for each row of the table in order, the
    line of its cells under these three columns, and no other column; when
    the merge gives an error, it returns the error's message and writes
    nothing. *)
Theorem generate_csv_result (w : World) (jira_file map_file export_file_name : string) :
  (forall table,
     _merge_files w jira_file map_file = Ok (Value table) ->
     writable w (export_file_name +:+ ".csv") = true ->
     generate_csv w jira_file map_file export_file_name =
       Ok ("CSV file generated successfully!",
           mkWorld
             (<[export_file_name +:+ ".csv" :=
                  "Issue Type,Summary,Label" +:+ linesep w +:+
                  String.concat ""
                    (map (fun lr => String.concat ","
                                      [Csv.render (Pd.cell lr.2 "Issue Type");
                                       Csv.render (Pd.cell lr.2 "Summary");
                                       Csv.render (Pd.cell lr.2 "Label")] +:+ linesep w)
                         (rows table))]> (files w))
             (writable w) (linesep w))) /\
  (forall e,
     _merge_files w jira_file map_file = Ok (Error e) ->
     generate_csv w jira_file map_file export_file_name = Ok (message e, w)).
Proof.
  split.
  - intros table H Hw. unfold FileHandler.generate_csv. rewrite H. cbn [bind].
    unfold to_csv. unfold Pd.has_columns. rewrite (merge_files_columns _ _ _ _ H).
    replace (forallb _ FileHandler.export_columns) with true by (vm_compute; reflexivity).
    cbn [negb]. rewrite Hw. cbn [bind]. by rewrite csv_text_export.
  - intros e H. unfold FileHandler.generate_csv. by rewrite H.
Qed.

End CsvExport.

(** ** Period inference *)

(** [max] returns an element that no element exceeds. *)
Lemma ltb_le (a b : string) : String.ltb a b = true -> String.le a b.
Proof.
  unfold String.le, String.ltb, String.leb.
  by destruct (String.compare a b).
Qed.

Lemma ltb_false_le (a b : string) : String.ltb a b = false -> String.le b a.
Proof.
  unfold String.le, String.ltb, String.leb. rewrite (String.compare_antisym b a).
  by destruct (String.compare a b).
Qed.

Lemma fold_max_spec (l : list string) (x : string) :
  let m := fold_left (fun cur y => if String.ltb cur y then y else cur) l x in
  (m = x \/ m ∈ l) /\ String.le x m /\ forall y, y ∈ l -> String.le y m.
Proof.
  revert x. induction l as [|y l IH]; intros x; simpl.
  - split; [by left|]. split; [done|]. by intros y ?%elem_of_nil.
  - destruct (IH (if String.ltb x y then y else x)) as (Hm & Hx & Hall).
    destruct (String.ltb x y) eqn:E.
    + split; [right; destruct Hm as [->|Hm]; [left | by right]|].
      split; [by etrans; [apply ltb_le|]|].
      intros z [->|Hz]%elem_of_cons; [done | by apply Hall].
    + split; [destruct Hm as [->|Hm]; [by left | right; by right]|].
      split; [done|].
      intros z [->|Hz]%elem_of_cons; [|by apply Hall].
      by etrans; [apply ltb_false_le|].
Qed.

Lemma max_spec (l : list string) (m : string) :
  Py.max l = Ok m -> m ∈ l /\ forall y, y ∈ l -> String.le y m.
Proof.
  destruct l as [|x l]; [done|]. simpl. intros [= <-].
  destruct (fold_max_spec l x) as (Hm & Hx & Hall).
  split; [destruct Hm as [->|Hm]; [left | by right]|].
  intros y [->|Hy]%elem_of_cons; [done | by apply Hall].
Qed.

(** A match of the period pattern is two digits, a dot and a digit, and
    stands in the subject. *)
Lemma search_pi_shape (s m : string) :
  Re.search Re.pi_pattern s = Some m ->
  Py.contains m s = true /\
  exists a b d, m = String a (String b (String "." (String d EmptyString))) /\
    Re.is_digit a = true /\ Re.is_digit b = true /\ Re.is_digit d = true.
Proof.
  induction s as [|c s IH].
  - simpl. discriminate.
  - change (Re.search Re.pi_pattern (String c s))
      with (match Re.pi_pattern (String c s) with
            | Some n => Some (Re.take n (String c s))
            | None => Re.search Re.pi_pattern s
            end).
    destruct (Re.pi_pattern (String c s)) as [n|] eqn:E.
    + intros [= <-]. unfold Re.pi_pattern in E.
      destruct s as [|b [|x [|d rest]]]; try discriminate E.
      destruct (Re.is_digit c) eqn:Ec, (Re.is_digit b) eqn:Eb,
        (Ascii.eqb_spec x "."), (Re.is_digit d) eqn:Ed; try discriminate E.
      injection E as <-. subst x. split.
      * apply (contains_app_l
                 (String c (String b (String "." (String d EmptyString)))) rest).
      * by exists c, b, d.
    + intros H. destruct (IH H) as [Hc Hshape]. split; [|done].
      change (Py.contains m (String c s))
        with (String.prefix m (String c s) || Py.contains m s).
      by rewrite Hc, orb_true_r.
Qed.

(** The current period is a match of the pattern in some Sprint value, and
    no match taken from a Sprint value exceeds it. *)
Lemma determine_current_pi_spec (sprints : Series) (pi : string) :
  FileHandler._determine_current_pi sprints = Ok pi ->
  exists found,
    Forall2 (fun v m => exists s, v = VStr s /\ Re.search Re.pi_pattern s = Some m)
            (Pd.values sprints) found /\
    pi ∈ found /\ forall m, m ∈ found -> String.le m pi.
Proof.
  unfold FileHandler._determine_current_pi. intros H. bind_case_as H E.
  exists a. split; [|by apply max_spec].
  apply mapM_Forall2 in E. eapply Forall2_impl; [exact E|].
  intros v m Hv. unfold FileHandler.pi_of in Hv.
  destruct v as [s| |]; try discriminate Hv.
  destruct (Re.search Re.pi_pattern s) as [m'|] eqn:Es; [|discriminate Hv].
  injection Hv as ->. by exists s.
Qed.

(** Without a story row nothing is there to take the maximum of. *)
Lemma determine_current_pi_empty :
  FileHandler._determine_current_pi (mkSeries []) = Raise ValueError.
Proof. reflexivity. Qed.

Lemma sample_sprints (i j : nat) :
  let sprints := mkSeries [(0, VStr "PI23.1 Sprint 4"); (i, VStr "PI23.2 Sprint 1");
                           (j, VStr "PI23.2 Sprint 3")] in
  FileHandler._determine_current_pi sprints = Ok "23.2" /\
  FileHandler._determine_latest_sprint sprints "23.2" = Ok "3" /\
  FileHandler._compose_query sprints "23.2" "3" = Ok "PI23.2 Sprint 3".
Proof. repeat split; vm_compute; reflexivity. Qed.

Lemma rename_key_cell (old new c : string) (r : gmap string value) :
  c <> old -> c <> new -> Pd.cell (Pd.rename_key old new r) c = Pd.cell r c.
Proof.
  intros Ho Hn. unfold Pd.cell, Pd.rename_key. destruct (r !! old); [|done].
  rewrite lookup_insert_ne by done. by rewrite lookup_delete_ne.
Qed.

Lemma query_eq_none (df : DataFrame) (col s : string) :
  (forall lr, lr ∈ rows df -> Pd.cell lr.2 col <> VStr s) ->
  rows (Pd.query_eq df col s) = [].
Proof.
  unfold Pd.query_eq. simpl. induction (rows df) as [|lr l IH]; intros H; [done|].
  rewrite filter_cons_False by (apply H; left). apply IH.
  intros lr' Hin. apply H. by right.
Qed.

Section Inference.

Variable parse_csv : string -> Result DataFrame.
Variable parse_excel : string -> Result DataFrame.

Local Abbreviation _load_data := (FileHandler._load_data parse_csv parse_excel).
Local Abbreviation _normalize_jira_export_file :=
  (FileHandler._normalize_jira_export_file parse_csv parse_excel).

(** The example of the specification when the first story stands in the
    first row of the export, the one labelled 0: on the Sprint values
    "PI23.1 Sprint 4", "PI23.2 Sprint 1" and "PI23.2 Sprint 3" of the story
    rows the current period is "23.2", the current sub-period is "3", the
    label composed from the Sprint of the row labelled 0 is
    "PI23.2 Sprint 3", and the export normaliser returns exactly the story
    rows whose Sprint is that label. *)
Lemma sprint_inference_example (w : World) (file : string)
    (raw truncated_data : DataFrame) (i j : nat) :
  let sprints := mkSeries [(0, VStr "PI23.1 Sprint 4"); (i, VStr "PI23.2 Sprint 1");
                           (j, VStr "PI23.2 Sprint 3")] in
  let stories :=
    Pd.query_eq (Pd.rename truncated_data "Custom field (Feature Link)" "Feature")
                "Issue Type" "Story" in
  FileHandler._determine_current_pi sprints = Ok "23.2" /\
  FileHandler._determine_latest_sprint sprints "23.2" = Ok "3" /\
  FileHandler._compose_query sprints "23.2" "3" = Ok "PI23.2 Sprint 3" /\
  (_load_data w file = Ok (Value raw) ->
   Pd.getitem_columns raw FileHandler.jira_columns = Ok truncated_data ->
   Pd.loc_column stories "Sprint" = Ok sprints ->
   exists normalized_data,
     _normalize_jira_export_file w file = Ok (Value normalized_data) /\
     forall lr, lr ∈ rows normalized_data <->
                (lr ∈ rows stories /\ Pd.cell lr.2 "Sprint" = VStr "PI23.2 Sprint 3")).
Proof.
  intros sprints stories.
  destruct (sample_sprints i j) as (H1 & H2 & H3). fold sprints in H1, H2, H3.
  repeat split; try done.
  intros Hload Hsel Hloc.
  exists (Pd.query_eq stories "Sprint" "PI23.2 Sprint 3"). split.
  - unfold FileHandler._normalize_jira_export_file. rewrite Hload. cbn [bind].
    rewrite Hsel. unfold FileHandler.latest_sprint_rows. fold stories.
    rewrite Hloc. cbn [bind]. rewrite H1. cbn [bind]. rewrite H2. cbn [bind].
    by rewrite H3.
  - intros lr. unfold Pd.query_eq at 1. simpl. rewrite list_elem_of_filter. tauto.
Qed.

(** C3, what the code does.  On the Sprint values "PI23.1 Sprint 4",
    "PI23.2 Sprint 1" and "PI23.2 Sprint 3" of the story rows, when no story
    stands in the row labelled 0 (the first row of the export is not a
    story): the current period is "23.2" and the current sub-period is "3",
    and then [sprints[0]], which looks the label 0 up and not the first
    value, raises [KeyError] out of [_compose_query], of the export
    normaliser and of [generate_csv]: no query is composed and no row is
    kept. *)
Theorem sprint_inference_label_lookup (w : World) (file : string)
    (raw truncated_data : DataFrame) (i j k : nat) :
  let sprints := mkSeries [(i, VStr "PI23.1 Sprint 4"); (j, VStr "PI23.2 Sprint 1");
                           (k, VStr "PI23.2 Sprint 3")] in
  let stories :=
    Pd.query_eq (Pd.rename truncated_data "Custom field (Feature Link)" "Feature")
                "Issue Type" "Story" in
  i <> 0 -> j <> 0 -> k <> 0 ->
  Pd.values sprints =
    [VStr "PI23.1 Sprint 4"; VStr "PI23.2 Sprint 1"; VStr "PI23.2 Sprint 3"] /\
  FileHandler._determine_current_pi sprints = Ok "23.2" /\
  FileHandler._determine_latest_sprint sprints "23.2" = Ok "3" /\
  FileHandler._compose_query sprints "23.2" "3" = Raise KeyError /\
  (_load_data w file = Ok (Value raw) ->
   Pd.getitem_columns raw FileHandler.jira_columns = Ok truncated_data ->
   Pd.loc_column stories "Sprint" = Ok sprints ->
   _normalize_jira_export_file w file = Raise KeyError /\
   forall map_file export_file_name,
     FileHandler.generate_csv parse_csv parse_excel w file map_file export_file_name =
       Raise KeyError).
Proof.
  intros sprints stories Hi Hj Hk.
  assert (H1 : FileHandler._determine_current_pi sprints = Ok "23.2") by reflexivity.
  assert (H2 : FileHandler._determine_latest_sprint sprints "23.2" = Ok "3") by reflexivity.
  assert (H3 : FileHandler._compose_query sprints "23.2" "3" = Raise KeyError).
  { unfold FileHandler._compose_query, Pd.getitem_label. simpl.
    by rewrite !bool_decide_eq_false_2 by done. }
  split; [done|]. split; [exact H1|]. split; [exact H2|]. split; [exact H3|].
  intros Hload Hsel Hloc.
  assert (N : _normalize_jira_export_file w file = Raise KeyError).
  { unfold FileHandler._normalize_jira_export_file. rewrite Hload. cbn [bind].
    rewrite Hsel. unfold FileHandler.latest_sprint_rows. fold stories.
    rewrite Hloc. cbn [bind]. rewrite H1. cbn [bind]. rewrite H2. cbn [bind].
    by rewrite H3. }
  split; [exact N|]. intros map_file name.
  unfold FileHandler.generate_csv, FileHandler._merge_files. by rewrite N.
Qed.

(** An export with the five columns and no story row makes the export
    normaliser, and with it [generate_csv], raise [ValueError]. *)
Lemma no_story_raises (w : World) (file map_file export_file_name : string)
    (raw : DataFrame) :
  _load_data w file = Ok (Value raw) ->
  Pd.has_columns FileHandler.jira_columns raw = true ->
  (forall lr, lr ∈ rows raw -> Pd.cell lr.2 "Issue Type" <> VStr "Story") ->
  _normalize_jira_export_file w file = Raise ValueError /\
  FileHandler.generate_csv parse_csv parse_excel w file map_file export_file_name =
    Raise ValueError.
Proof.
  intros Hload Hcols Hnone.
  assert (N : _normalize_jira_export_file w file = Raise ValueError).
  { unfold FileHandler._normalize_jira_export_file. rewrite Hload. cbn [bind].
    unfold Pd.getitem_columns. rewrite Hcols.
    unfold FileHandler.latest_sprint_rows, Pd.loc_column.
    rewrite query_eq_none; [reflexivity|].
    intros [l r] Hin. simpl in *.
    change (map ?f ?l) with (f <$> l) in Hin.
    apply list_elem_of_fmap in Hin as ([l1 r1] & [= -> ->] & Hin). simpl in Hin.
    apply list_elem_of_fmap in Hin as ([l2 r2] & [= -> ->] & Hin). simpl.
    rewrite rename_key_cell by (intros [=]).
    rewrite restrict_cell by (do 2 right; left).
    by apply (Hnone (l2, r2)). }
  split; [exact N|].
  unfold FileHandler.generate_csv, FileHandler._merge_files. by rewrite N.
Qed.

End Inference.

(** C1, what the code does.  An export with the five columns and no story
    row passes the column check, and then [max] of no match at all raises
    [ValueError] out of [generate_csv] and [generate]; with a task in the
    first row, [sprints[0]] raises [KeyError]. *)
Theorem generate_csv_raises :
  Pd.has_columns FileHandler.jira_columns Sample.tasks_only_table = true /\
  FileHandler.generate_csv Sample.parse Sample.parse Sample.disk
    "tasks.csv" "map.xlsx" "report" = Raise ValueError /\
  FileHandler.generate Sample.parse Sample.parse Sample.disk
    "tasks.csv" "map.xlsx" "out" "report" = Raise ValueError /\
  Pd.has_columns FileHandler.jira_columns Sample.task_first_table = true /\
  FileHandler.generate_csv Sample.parse Sample.parse Sample.disk
    "task_first.csv" "map.xlsx" "report" = Raise KeyError.
Proof. repeat split; vm_compute; reflexivity. Qed.

(** ** The string functions on small inputs *)

Example split_path : Py.split "." "a.b/c.csv" = ["a"; "b/c"; "csv"].
Proof. reflexivity. Qed.

Example split_no_dot : Py.split "." "csv" = ["csv"].
Proof. reflexivity. Qed.

Example split_trailing_dots :
  Py.split "." "Browse your Jira file here ..." =
  ["Browse your Jira file here "; ""; ""; ""].
Proof. reflexivity. Qed.

Example search_leftmost :
  Re.search Re.pi_pattern "Team Kiwi PI23.1 Sprint 5 (was 22.4)" = Some "23.1".
Proof. reflexivity. Qed.

Example search_nothing : Re.search Re.pi_pattern "Backlog 2023" = None.
Proof. reflexivity. Qed.

Example compose_query_comment :
  FileHandler._compose_query (mkSeries [(0, VStr "Team Kiwi PI23.1 Sprint 5")]) "23.2" "7"
  = Ok "Team Kiwi PI23.2 Sprint 7".
Proof. reflexivity. Qed.

Example sub_before_final_newline :
  FileHandler.re_sub Re.sprint_pattern "7" (VStr ("Sprint 5" +:+ nl)) = Ok ("Sprint 7" +:+ nl).
Proof. reflexivity. Qed.

Example sub_backslash_template :
  FileHandler.re_sub Re.sprint_pattern "\" (VStr "Sprint 5") = Raise ReError.
Proof. reflexivity. Qed.

Example max_is_lexicographic : Py.max ["9.9"; "23.2"; "23.10"] = Ok "9.9".
Proof. reflexivity. Qed.

Example field_with_comma :
  Csv.field "Pay, by card" = dquote +:+ "Pay, by card" +:+ dquote.
Proof. reflexivity. Qed.

(** ** The properties at the sample inputs *)

Lemma sample_normalize_jira :
  FileHandler._normalize_jira_export_file Sample.parse Sample.parse Sample.disk "jira.csv" =
  Ok (Value Sample.normalized_export).
Proof. vm_compute. reflexivity. Qed.

Lemma sample_normalize_map :
  FileHandler._normalize_map_file Sample.parse Sample.parse Sample.disk "map.xlsx" =
  Ok (Value Sample.map_table).
Proof. vm_compute. reflexivity. Qed.

Lemma sample_join :
  Pd.merge Sample.normalized_export Sample.map_table "Feature" = Ok Sample.joined.
Proof. vm_compute. reflexivity. Qed.

Lemma sample_merge :
  FileHandler._merge_files Sample.parse Sample.parse Sample.disk "jira.csv" "map.xlsx" =
  Ok (Value Sample.merged).
Proof. vm_compute. reflexivity. Qed.

Lemma sample_generate :
  FileHandler.generate_csv Sample.parse Sample.parse Sample.disk
    "jira.csv" "map.xlsx" "out/report" =
  Ok ("CSV file generated successfully!", Sample.disk_after).
Proof. vm_compute. reflexivity. Qed.

Lemma not_elem_of_by_decide (c : string) (l : list string) :
  bool_decide (c ∈ l) = false -> c ∉ l.
Proof. apply bool_decide_eq_false. Qed.

Lemma supported_by_decide (ext : string) :
  bool_decide (ext ∈ FileHandler.supported_file_types) = true ->
  ext ∈ FileHandler.supported_file_types.
Proof. apply bool_decide_eq_true. Qed.

Lemma unsupported_by_decide (ext : string) :
  bool_decide (ext ∈ FileHandler.supported_file_types) = false ->
  ext ∉ FileHandler.supported_file_types.
Proof. apply bool_decide_eq_false. Qed.

(** C10 at the dotless path "csv": the extension is the whole path, the
    check succeeds and the loader's answer is that of [read_csv]. *)
Lemma check_file_extension_last_segment_witness :
  after_last_dot "csv" "csv" /\
  FileHandler._check_file_extension "csv" = Ok (Value "csv") /\
  FileHandler._load_data Sample.parse Sample.parse Sample.empty_disk "csv" =
    Ok (Error (mkJLError "File not found!")).
Proof.
  assert (H : after_last_dot "csv" "csv") by (split; [reflexivity | left; reflexivity]).
  split; [exact H|].
  destruct (check_file_extension_last_segment Sample.parse Sample.parse "csv" "csv" H)
    as (_ & Hyes & _).
  destruct (Hyes (supported_by_decide "csv" eq_refl)) as [Hcheck Hload].
  split; [exact Hcheck|]. rewrite Hload. reflexivity.
Defined.

(** C2 as stated fails: no file stands under "missing.txt", and the loader
    returns the unsupported-type error, which is not "File not found!". *)
Lemma load_missing_unsupported_counterexample :
  files Sample.empty_disk !! "missing.txt" = None /\
  FileHandler._load_data Sample.parse Sample.parse Sample.empty_disk "missing.txt" =
    Ok (Error (mkJLError ("Unsupported file type." +:+ nl +:+
                          "Please use only excel or csv files."))) /\
  FileHandler._load_data Sample.parse Sample.parse Sample.empty_disk "missing.txt" <>
    Ok (Error (mkJLError "File not found!")).
Proof.
  split; [reflexivity|]. split; [vm_compute; reflexivity|].
  vm_compute. discriminate.
Qed.

Lemma load_missing_file_witness :
  FileHandler._load_data Sample.parse Sample.parse Sample.empty_disk "missing.csv" =
    Ok (Error (mkJLError "File not found!")) /\
  FileHandler._load_data Sample.parse Sample.parse Sample.empty_disk "missing.txt" =
    Ok (Error FileHandler.unsupported_file_type).
Proof.
  split.
  - refine (proj1 (load_missing_file Sample.parse Sample.parse Sample.empty_disk
                     "missing.csv" "csv" _ _) _).
    + split; [reflexivity | right; exists "missing"; reflexivity].
    + reflexivity.
    + apply supported_by_decide. vm_compute. reflexivity.
  - refine (proj2 (load_missing_file Sample.parse Sample.parse Sample.empty_disk
                     "missing.txt" "txt" _ _) _).
    + split; [reflexivity | right; exists "missing"; reflexivity].
    + reflexivity.
    + apply unsupported_by_decide. vm_compute. reflexivity.
Defined.

Lemma normalizers_pass_loader_error_witness :
  FileHandler._normalize_jira_export_file Sample.parse Sample.parse Sample.disk "notes.txt" =
    Ok (Error FileHandler.unsupported_file_type) /\
  FileHandler._normalize_map_file Sample.parse Sample.parse Sample.disk "notes.txt" =
    Ok (Error FileHandler.unsupported_file_type).
Proof.
  apply (normalizers_pass_loader_error Sample.parse Sample.parse Sample.disk "notes.txt").
  vm_compute. reflexivity.
Defined.

Lemma normalizers_missing_column_witness :
  FileHandler._normalize_jira_export_file Sample.parse Sample.parse Sample.disk
    "nosprint.xlsx" = Ok (Error FileHandler.columns_missing) /\
  FileHandler._normalize_map_file Sample.parse Sample.parse Sample.disk
    "nosprint.xlsx" = Ok (Error FileHandler.columns_missing).
Proof.
  assert (L : FileHandler._load_data Sample.parse Sample.parse Sample.disk "nosprint.xlsx" =
              Ok (Value Sample.no_sprint_table)) by (vm_compute; reflexivity).
  destruct (normalizers_missing_column Sample.parse Sample.parse Sample.disk
              "nosprint.xlsx" Sample.no_sprint_table L) as [Hj Hm].
  split.
  - apply Hj. exists "Sprint". split.
    + do 4 right. left.
    + apply not_elem_of_by_decide. vm_compute. reflexivity.
  - apply Hm. exists "Label". split.
    + right. left.
    + apply not_elem_of_by_decide. vm_compute. reflexivity.
Defined.



(** C5 on the samples: F9 stands in the map only and no merged row
    carries it; F2 stands in both tables and in the merged one. *)
Lemma merge_is_inner_join_witness :
  VStr "F2" ∈ feature_values Sample.merged /\
  Forall (fun lr => Pd.cell lr.2 "Feature" <> VStr "F9") (rows Sample.merged).
Proof.
  destruct (merge_is_inner_join Sample.parse Sample.parse Sample.disk
              "jira.csv" "map.xlsx" Sample.normalized_export Sample.map_table
              Sample.merged) as [Hiff Hone].
  - vm_compute. reflexivity.
  - vm_compute. reflexivity.
  - vm_compute. reflexivity.
  - split.
    + apply Hiff. split; [left | right; left].
    + apply Forall_forall. apply (Hone (VStr "F9")). right. split.
      * apply (proj1 (bool_decide_eq_false _)). vm_compute. reflexivity.
      * do 2 right. left.
Defined.

Lemma merged_summary_is_key_space_summary_witness :
  exists jira map_table joined,
    FileHandler._normalize_jira_export_file Sample.parse Sample.parse Sample.disk
      "jira.csv" = Ok (Value jira) /\
    FileHandler._normalize_map_file Sample.parse Sample.parse Sample.disk
      "map.xlsx" = Ok (Value map_table) /\
    Pd.merge jira map_table "Feature" = Ok joined /\
    Forall2 summary_joined (rows joined) (rows Sample.merged) /\
    forall lr, lr ∈ rows Sample.merged ->
      exists key summary l r,
        l ∈ rows jira /\ r ∈ rows map_table /\
        Pd.cell l.2 "Issue key" = VStr key /\
        Pd.cell l.2 "Summary" = VStr summary /\
        Pd.cell lr.2 "Summary" = VStr (key +:+ " " +:+ summary).
Proof.
  apply (merged_summary_is_key_space_summary Sample.parse Sample.parse Sample.disk
           "jira.csv" "map.xlsx" Sample.merged).
  vm_compute. reflexivity.
Defined.

Lemma generate_csv_result_witness :
  FileHandler.generate_csv Sample.parse Sample.parse Sample.disk
    "jira.csv" "map.xlsx" "out/report" =
    Ok ("CSV file generated successfully!", Sample.disk_after) /\
  FileHandler.generate_csv Sample.parse Sample.parse Sample.disk
    "jira.csv" "notes.txt" "out/report" =
    Ok ("Unsupported file type." +:+ nl +:+
        "Please use only excel or csv files. (from map file)", Sample.disk).
Proof.
  split.
  - destruct (generate_csv_result Sample.parse Sample.parse Sample.disk
                "jira.csv" "map.xlsx" "out/report") as [H _].
    rewrite (H Sample.merged); [vm_compute; reflexivity | vm_compute; reflexivity | reflexivity].
  - destruct (generate_csv_result Sample.parse Sample.parse Sample.disk
                "jira.csv" "notes.txt" "out/report") as [_ H].
    rewrite (H (mkJLError ("Unsupported file type." +:+ nl +:+
                           "Please use only excel or csv files. (from map file)")));
      [reflexivity | vm_compute; reflexivity].
Defined.

(** C3 on the sample export with the task first: its stories carry the
    three Sprint values under the labels 1, 2 and 3, the period and the
    sub-period are found, and the normaliser raises. *)
Lemma sprint_inference_label_lookup_witness :
  Pd.loc_column
    (Pd.query_eq
       (Pd.rename (mkDataFrame FileHandler.jira_columns
                     (map (fun lr => (lr.1, Pd.restrict FileHandler.jira_columns lr.2))
                          (rows Sample.task_first_table)) [])
                  "Custom field (Feature Link)" "Feature")
       "Issue Type" "Story") "Sprint" =
    Ok (mkSeries [(1, VStr "PI23.1 Sprint 4"); (2, VStr "PI23.2 Sprint 1");
                  (3, VStr "PI23.2 Sprint 3")]) /\
  FileHandler._determine_current_pi
    (mkSeries [(1, VStr "PI23.1 Sprint 4"); (2, VStr "PI23.2 Sprint 1");
               (3, VStr "PI23.2 Sprint 3")]) = Ok "23.2" /\
  FileHandler._determine_latest_sprint
    (mkSeries [(1, VStr "PI23.1 Sprint 4"); (2, VStr "PI23.2 Sprint 1");
               (3, VStr "PI23.2 Sprint 3")]) "23.2" = Ok "3" /\
  FileHandler._compose_query
    (mkSeries [(1, VStr "PI23.1 Sprint 4"); (2, VStr "PI23.2 Sprint 1");
               (3, VStr "PI23.2 Sprint 3")]) "23.2" "3" = Raise KeyError /\
  FileHandler._normalize_jira_export_file Sample.parse Sample.parse Sample.disk
    "task_first.csv" = Raise KeyError /\
  FileHandler.generate_csv Sample.parse Sample.parse Sample.disk
    "task_first.csv" "map.xlsx" "out/report" = Raise KeyError.
Proof.
  assert (Hloc :
    Pd.loc_column
      (Pd.query_eq
         (Pd.rename (mkDataFrame FileHandler.jira_columns
                       (map (fun lr => (lr.1, Pd.restrict FileHandler.jira_columns lr.2))
                            (rows Sample.task_first_table)) [])
                    "Custom field (Feature Link)" "Feature")
         "Issue Type" "Story") "Sprint" =
      Ok (mkSeries [(1, VStr "PI23.1 Sprint 4"); (2, VStr "PI23.2 Sprint 1");
                    (3, VStr "PI23.2 Sprint 3")])) by (vm_compute; reflexivity).
  destruct (sprint_inference_label_lookup Sample.parse Sample.parse Sample.disk
              "task_first.csv" Sample.task_first_table
              (mkDataFrame FileHandler.jira_columns
                 (map (fun lr => (lr.1, Pd.restrict FileHandler.jira_columns lr.2))
                      (rows Sample.task_first_table)) [])
              1 2 3) as (_ & H1 & H2 & H3 & H); [lia | lia | lia |].
  destruct H as [N G]; [vm_compute; reflexivity | vm_compute; reflexivity | exact Hloc |].
  split; [exact Hloc|]. split; [exact H1|]. split; [exact H2|]. split; [exact H3|].
  split; [exact N|]. apply G.
Defined.

(** The example of the specification on the sample export: its stories
    carry the three Sprint values, under the labels 0, 1 and 3. *)
Lemma sprint_inference_example_witness :
  exists normalized_data,
    FileHandler._normalize_jira_export_file Sample.parse Sample.parse Sample.disk
      "jira.csv" = Ok (Value normalized_data) /\
    forall lr, lr ∈ rows normalized_data <->
      (lr ∈ rows (Pd.query_eq
                    (Pd.rename Sample.truncated_export "Custom field (Feature Link)" "Feature")
                    "Issue Type" "Story") /\
       Pd.cell lr.2 "Sprint" = VStr "PI23.2 Sprint 3").
Proof.
  destruct (sprint_inference_example Sample.parse Sample.parse Sample.disk "jira.csv"
              Sample.export_table Sample.truncated_export 1 3) as (_ & _ & _ & H).
  apply H; vm_compute; reflexivity.
Defined.

(** * Further properties of the pipeline *)

(** ** What the loader returns and raises *)

Section LoaderOutcomes.

Variable parse_csv : string -> Result DataFrame.
Variable parse_excel : string -> Result DataFrame.

Local Abbreviation _load_data := (FileHandler._load_data parse_csv parse_excel).
Local Abbreviation parser := (parser_for parse_csv parse_excel).

Lemma load_supported_bytes (w : World) (file ext : string) :
  after_last_dot file ext -> ext ∈ FileHandler.supported_file_types ->
  _load_data w file =
  match files w !! file with
  | None => Ok (Error FileHandler.file_not_found)
  | Some bytes =>
      match parser ext bytes with
      | Raise FileNotFoundError => Ok (Error FileHandler.file_not_found)
      | Raise e => Raise e
      | Ok raw_data => Ok (Value raw_data)
      end
  end.
Proof.
  intros Hext Hin. rewrite (load_supported _ _ w file ext Hext Hin).
  unfold FileHandler.read_csv, FileHandler.read_excel, parser_for.
  destruct (decide (ext = "csv")); by destruct (files w !! file).
Qed.

Lemma load_error_cases (w : World) (file : string) (e : JLError) :
  _load_data w file = Ok (Error e) ->
  e = FileHandler.unsupported_file_type \/ e = FileHandler.file_not_found.
Proof.
  destruct (split_last_spec file) as (ext & _ & Hext).
  destruct (decide (ext ∈ FileHandler.supported_file_types)) as [Hin|Hin].
  - rewrite (load_supported_bytes w file ext Hext Hin).
    destruct (files w !! file) as [bytes|]; [|intros [= <-]; by right].
    destruct (parser ext bytes) as [df|[]]; try discriminate.
    intros [= <-]. by right.
  - rewrite (load_unsupported _ _ w file ext Hext Hin). intros [= <-]. by left.
Qed.

(** X1.  The loader returns a table exactly when the part of the path after
    its last dot is xls, xlsx or csv, a file stands under the path and the
    reader for that extension parses its bytes; the table is the parsed one,
    unfiltered. *)
Theorem load_data_returns_parsed_table (w : World) (file ext : string) (df : DataFrame) :
  after_last_dot file ext ->
  _load_data w file = Ok (Value df) <->
  (ext ∈ FileHandler.supported_file_types /\
   exists bytes, files w !! file = Some bytes /\ parser ext bytes = Ok df).
Proof.
  intros Hext.
  destruct (decide (ext ∈ FileHandler.supported_file_types)) as [Hin|Hin].
  - rewrite (load_supported_bytes w file ext Hext Hin). split.
    + destruct (files w !! file) as [bytes|]; [|discriminate].
      destruct (parser ext bytes) as [raw|[]] eqn:E; try discriminate.
      intros [= ->]. split; [done|]. by exists bytes.
    + intros (_ & bytes & -> & ->). done.
  - rewrite (load_unsupported _ _ w file ext Hext Hin). split; [discriminate|].
    by intros [? _].
Qed.

(** X2.  The loader raises only what the reader raised on the bytes of an
    existing file of a supported type, and it never raises
    [FileNotFoundError]: a missing file and an unsupported type come back as
    error values. *)
Theorem load_data_raises_only_reader_errors (w : World) (file ext : string) (e : exn) :
  after_last_dot file ext ->
  _load_data w file = Raise e <->
  (e <> FileNotFoundError /\ ext ∈ FileHandler.supported_file_types /\
   exists bytes, files w !! file = Some bytes /\ parser ext bytes = Raise e).
Proof.
  intros Hext.
  destruct (decide (ext ∈ FileHandler.supported_file_types)) as [Hin|Hin].
  - rewrite (load_supported_bytes w file ext Hext Hin). split.
    + destruct (files w !! file) as [bytes|]; [|discriminate].
      destruct (parser ext bytes) as [raw|e'] eqn:E; [discriminate|].
      destruct e'; try discriminate; intros [= <-];
        (split; [discriminate|]); (split; [done|]); by exists bytes.
    + intros (Hne & _ & bytes & -> & ->). by destruct e.
  - rewrite (load_unsupported _ _ w file ext Hext Hin). split; [discriminate|].
    by intros (_ & ? & _).
Qed.

(** X12.  A path comes back from the loader as an error value exactly in
    two ways: its extension is not supported (the unsupported-type error),
    or it is supported and no file stands under the path, or the reader
    itself reports a missing file (the file-not-found error). *)
Theorem load_data_error_values (w : World) (file ext : string) (e : JLError) :
  after_last_dot file ext ->
  _load_data w file = Ok (Error e) <->
  (((ext ∉ FileHandler.supported_file_types) /\ e = FileHandler.unsupported_file_type) \/
   (ext ∈ FileHandler.supported_file_types /\ e = FileHandler.file_not_found /\
    (files w !! file = None \/
     exists bytes, files w !! file = Some bytes /\
                   parser ext bytes = Raise FileNotFoundError))).
Proof.
  intros Hext.
  destruct (decide (ext ∈ FileHandler.supported_file_types)) as [Hin|Hin].
  - rewrite (load_supported_bytes w file ext Hext Hin). split.
    + destruct (files w !! file) as [bytes|] eqn:F.
      * destruct (parser ext bytes) as [raw|[]] eqn:E; try discriminate.
        intros [= <-]. right. split; [done|]. split; [done|]. right. by exists bytes.
      * intros [= <-]. right. split; [done|]. split; [done|]. by left.
    + intros [[? _]|(_ & -> & [->|(bytes & -> & ->)])]; done.
  - rewrite (load_unsupported _ _ w file ext Hext Hin). split.
    + intros [= <-]. by left.
    + intros [[_ ->]|[? _]]; done.
Qed.

(** X13.  The extension check never raises: for every path it returns
    either the part after the last dot, which then is xls, xlsx or csv, or
    the unsupported-type error. *)
Theorem check_file_extension_total (file : string) :
  (exists ext, FileHandler._check_file_extension file = Ok (Value ext) /\
               after_last_dot file ext /\ ext ∈ FileHandler.supported_file_types) \/
  (FileHandler._check_file_extension file =
     Ok (Error FileHandler.unsupported_file_type) /\
   exists ext, after_last_dot file ext /\ ext ∉ FileHandler.supported_file_types).
Proof.
  destruct (split_last_spec file) as (ext & _ & Hext).
  destruct (decide (ext ∈ FileHandler.supported_file_types)) as [Hin|Hin].
  - left. exists ext. split; [by apply check_supported|done].
  - right. split; [by apply (check_unsupported file ext)|]. by exists ext.
Qed.

End LoaderOutcomes.

(** ** The strings [generate_csv] can return *)

Section Messages.

Variable parse_csv : string -> Result DataFrame.
Variable parse_excel : string -> Result DataFrame.

Local Abbreviation _normalize_jira_export_file :=
  (FileHandler._normalize_jira_export_file parse_csv parse_excel).
Local Abbreviation _normalize_map_file :=
  (FileHandler._normalize_map_file parse_csv parse_excel).
Local Abbreviation generate_csv := (FileHandler.generate_csv parse_csv parse_excel).

Lemma normalize_jira_error (w : World) (file : string) (e : JLError) :
  _normalize_jira_export_file w file = Ok (Error e) -> base_error e.
Proof.
  unfold FileHandler._normalize_jira_export_file. intros H. bind_case_as H L.
  destruct a as [raw|e0].
  - destruct (Pd.getitem_columns raw FileHandler.jira_columns) as [t|[]];
      try discriminate H.
    + bind_case_as H Hn. discriminate H.
    + injection H as <-. by right; right.
  - injection H as <-.
    destruct (load_error_cases _ _ _ _ _ L) as [->| ->]; [by left | by right; left].
Qed.

Lemma normalize_map_error (w : World) (file : string) (e : JLError) :
  _normalize_map_file w file = Ok (Error e) -> base_error e.
Proof.
  unfold FileHandler._normalize_map_file. intros H. bind_case_as H L.
  destruct a as [raw|e0].
  - destruct (Pd.getitem_columns raw FileHandler.map_columns) as [t|[]];
      try discriminate H.
    injection H as <-. by right; right.
  - injection H as <-.
    destruct (load_error_cases _ _ _ _ _ L) as [->| ->]; [by left | by right; left].
Qed.

(** X3.  A string returned by [generate_csv] is the success message or one
    of the three error messages (unsupported type, file not found, columns
    missing) followed by its source, or two of them, one per source. *)
Theorem generate_csv_messages (w w' : World) (jira_file map_file export_file_name s : string) :
  generate_csv w jira_file map_file export_file_name = Ok (s, w') ->
  s = "CSV file generated successfully!" \/
  exists e, base_error e /\
    (s = message e +:+ " (from Jira extraction file)" \/
     s = message e +:+ " (from map file)" \/
     exists e2, base_error e2 /\
       s = message e +:+ "(from Jira extraction file) and" +:+ nl +:+
           message e2 +:+ " (from map file)").
Proof.
  unfold FileHandler.generate_csv, FileHandler._merge_files. intros H.
  bind_case_as H M. bind_case_as M N1. bind_case_as M N2.
  destruct a0 as [jira|e1], a1 as [mp|e2].
  - bind_case_as M T. injection M as <-. bind_case_as H W. injection H as <- _.
    by left.
  - injection M as <-. injection H as <- _. right. exists e2.
    split; [by eapply normalize_map_error|]. by right; left.
  - injection M as <-. injection H as <- _. right. exists e1.
    split; [by eapply normalize_jira_error|]. by left.
  - injection M as <-. injection H as <- _. right. exists e1.
    split; [by eapply normalize_jira_error|]. right; right. exists e2.
    split; [by eapply normalize_map_error|]. done.
Qed.

End Messages.

(** ** When the period inference returns *)

Lemma mapM_total {A B : Type} (f : A -> Result B) (P : A -> Prop) (l : list A) :
  (forall a, P a -> exists b, f a = Ok b) -> Forall P l -> exists bs, mapM f l = Ok bs.
Proof.
  intros Hf. induction 1 as [|a l Ha _ [bs IH]]; [by exists []|].
  destruct (Hf a Ha) as [b Hb]. exists (b :: bs). simpl. by rewrite Hb, IH.
Qed.

Lemma max_nonempty (l : list string) : l <> [] -> exists m, Py.max l = Ok m.
Proof. destruct l as [|x l]; [done|]. intros _. by eexists. Qed.

Lemma Forall2_nil_iff {A B : Type} (P : A -> B -> Prop) (l : list A) (k : list B) :
  Forall2 P l k -> l = [] <-> k = [].
Proof. by destruct 1. Qed.

(** X4.  [_determine_current_pi] raises [ValueError] on no Sprint value at
    all; it returns exactly when there is a value and every value is a
    string in which the period pattern matches; what it returns is then the
    match of some value, and no value has a greater match. *)
Theorem determine_current_pi_returns (sprints : Series) :
  (Pd.values sprints = [] -> FileHandler._determine_current_pi sprints = Raise ValueError) /\
  ((exists pi, FileHandler._determine_current_pi sprints = Ok pi) <->
   (Pd.values sprints <> [] /\
    Forall (fun v => exists s, v = VStr s /\ is_Some (Re.search Re.pi_pattern s))
           (Pd.values sprints))) /\
  (forall pi, FileHandler._determine_current_pi sprints = Ok pi ->
     (exists s, VStr s ∈ Pd.values sprints /\ Re.search Re.pi_pattern s = Some pi) /\
     forall s m, VStr s ∈ Pd.values sprints -> Re.search Re.pi_pattern s = Some m ->
       String.le m pi).
Proof.
  split; [|split].
  - unfold FileHandler._determine_current_pi. by intros ->.
  - split.
    + intros [pi H]. destruct (determine_current_pi_spec _ _ H) as (found & HF & Hin & _).
      split.
      * intros Hnil. apply (Forall2_nil_iff _ _ _ HF) in Hnil. subst found.
        by apply elem_of_nil in Hin.
      * apply (Forall2_Forall_l _ _ _ _ HF). apply Forall_forall.
        intros m _ v (s & -> & Hs). exists s. by rewrite Hs.
    + intros [Hne Hall]. unfold FileHandler._determine_current_pi.
      assert (Hf : forall v,
                (exists s, v = VStr s /\ is_Some (Re.search Re.pi_pattern s)) ->
                exists m, FileHandler.pi_of v = Ok m).
      { intros v (s & -> & m & Hm). exists m. simpl. by rewrite Hm. }
      destruct (mapM_total FileHandler.pi_of _ _ Hf Hall) as [found Hfound].
      rewrite Hfound. cbn [bind]. apply max_nonempty.
      intros ->. apply mapM_Forall2 in Hfound.
      by apply Hne, (Forall2_nil_iff _ _ _ Hfound).
  - intros pi H. destruct (determine_current_pi_spec _ _ H) as (found & HF & Hin & Hmax).
    split.
    + destruct (Forall2_elem_of_r _ _ _ _ HF Hin) as (v & Hv & s & -> & Hs).
      by exists s.
    + intros s m Hs Hm.
      destruct (Forall2_elem_of_l _ _ _ _ HF Hs) as (m' & Hm' & s' & [= <-] & Hs').
      rewrite Hm in Hs'. injection Hs' as ->. by apply Hmax.
Qed.

Lemma str_last_cons (c : ascii) (s : string) :
  exists d, Py.str_last (String c s) = Ok (String d EmptyString).
Proof.
  revert c. induction s as [|c' s IH]; intros c; [by exists c|].
  destruct (IH c') as [d Hd]. exists d.
  change (Py.str_last (String c (String c' s))) with (Py.str_last (String c' s)).
  exact Hd.
Qed.

Lemma contains_nonempty (a : ascii) (p s : string) :
  Py.contains (String a p) s = true -> exists c s', s = String c s'.
Proof. destruct s as [|c s']; [done|]. by exists c, s'. Qed.

(** What one step of the comprehension of [_determine_latest_sprint] gives
    on a string cell, for a period that is not empty. *)
Lemma last_if_in_string (a : ascii) (p s : string) :
  exists o, FileHandler.last_if_in (String a p) (VStr s) = Ok o /\
    (forall c, o = Some c <-> (Py.contains (String a p) s = true /\ Py.str_last s = Ok c)).
Proof.
  unfold FileHandler.last_if_in.
  destruct (Py.contains (String a p) s) eqn:E.
  - destruct (contains_nonempty _ _ _ E) as (c & s' & ->).
    destruct (str_last_cons c s') as [d Hd]. rewrite Hd. exists (Some (String d EmptyString)).
    split; [done|]. intros c'. split; [by intros [= <-] | by intros [_ [= <-]]].
  - exists None. split; [done|]. intros c. split; [done | by intros [? _]].
Qed.

(** X5.  Once [_determine_current_pi] has returned a period,
    [_determine_latest_sprint] with that period returns too: its result is
    the last character of a Sprint value that contains the period, and the
    last character of no such value is greater. *)
Theorem latest_sprint_after_current_pi (sprints : Series) (pi : string) :
  FileHandler._determine_current_pi sprints = Ok pi ->
  exists c,
    FileHandler._determine_latest_sprint sprints pi = Ok c /\
    (exists s, VStr s ∈ Pd.values sprints /\ Py.contains pi s = true /\
               Py.str_last s = Ok c) /\
    forall s c', VStr s ∈ Pd.values sprints -> Py.contains pi s = true ->
      Py.str_last s = Ok c' -> String.le c' c.
Proof.
  intros H. destruct (determine_current_pi_spec _ _ H) as (found & HF & Hin & _).
  destruct (Forall2_elem_of_r _ _ _ _ HF Hin) as (v0 & Hv0 & s0 & -> & Hs0).
  destruct (search_pi_shape _ _ Hs0) as (Hc0 & a & b & d & -> & _).
  remember (String b (String "." (String d EmptyString))) as p eqn:Hp. clear Hp.
  assert (Hstr : Forall (fun v => exists s, v = VStr s) (Pd.values sprints)).
  { apply (Forall2_Forall_l _ _ _ _ HF). apply Forall_forall.
    intros m _ v (s & -> & _). by exists s. }
  assert (Hkept : exists kept,
    mapM (FileHandler.last_if_in (String a p)) (Pd.values sprints) = Ok kept /\
    Forall2 (fun v o => exists s, v = VStr s /\
               forall c, o = Some c <->
                 (Py.contains (String a p) s = true /\ Py.str_last s = Ok c))
            (Pd.values sprints) kept).
  { clear -Hstr. induction Hstr as [|v l [s ->] _ (kept & Hk & HF)].
    - exists []. split; [done | constructor].
    - destruct (last_if_in_string a p s) as (o & Ho & Hospec).
      exists (o :: kept). split.
      + cbn [mapM]. rewrite Ho. cbn [bind]. by rewrite Hk.
      + constructor; [by exists s | done]. }
  destruct Hkept as (kept & Hk & HK).
  unfold FileHandler._determine_latest_sprint. rewrite Hk. cbn [bind].
  destruct (Forall2_elem_of_l _ _ _ _ HK Hv0) as (o0 & Ho0 & s0' & [= <-] & Hspec0).
  destruct (contains_nonempty _ _ _ Hc0) as (x & s1 & ->).
  destruct (str_last_cons x s1) as [d0 Hd0].
  assert (Hc : String d0 EmptyString ∈ omap id kept).
  { apply list_elem_of_omap. exists o0. split; [done|]. simpl. by apply Hspec0. }
  destruct (max_nonempty (omap id kept)) as [c Hmax].
  { intros Hnil. rewrite Hnil in Hc. by apply elem_of_nil in Hc. }
  exists c. split; [done|].
  destruct (max_spec _ _ Hmax) as [Hcin Hbound]. split.
  - apply list_elem_of_omap in Hcin as (o & Ho & Hoc). simpl in Hoc. subst o.
    destruct (Forall2_elem_of_r _ _ _ _ HK Ho) as (v & Hv & s & -> & Hs).
    exists s. split; [done|]. by apply Hs.
  - intros s c' Hs Hcs Hl.
    destruct (Forall2_elem_of_l _ _ _ _ HK Hs) as (o & Ho & s' & [= <-] & Hspec).
    apply Hbound. apply list_elem_of_omap. exists o. split; [done|]. simpl.
    by apply Hspec.
Qed.

(** ** The rows a normaliser returns *)

Lemma rename_key_cell_new (old new : string) (r : gmap string value) :
  r !! new = None -> Pd.cell (Pd.rename_key old new r) new = Pd.cell r old.
Proof.
  intros Hnew. unfold Pd.cell, Pd.rename_key. destruct (r !! old) as [v|] eqn:E.
  - by rewrite lookup_insert_eq.
  - by rewrite Hnew.
Qed.

Lemma restrict_lookup_out (cols : list string) (r : gmap string value) (c : string) :
  c ∉ cols -> Pd.restrict cols r !! c = None.
Proof. intros Hc. unfold Pd.restrict. apply map_lookup_filter_None_2. right. by intros v _. Qed.

Lemma elem_of_by_decide (c : string) (l : list string) :
  bool_decide (c ∈ l) = true -> c ∈ l.
Proof. apply bool_decide_eq_true. Qed.

(** The row of the story table that a row of the loaded table becomes. *)
Lemma story_cells (r : gmap string value) :
  let r' := Pd.rename_key "Custom field (Feature Link)" "Feature"
              (Pd.restrict FileHandler.jira_columns r) in
  Pd.cell r' "Summary" = Pd.cell r "Summary" /\
  Pd.cell r' "Issue key" = Pd.cell r "Issue key" /\
  Pd.cell r' "Issue Type" = Pd.cell r "Issue Type" /\
  Pd.cell r' "Sprint" = Pd.cell r "Sprint" /\
  Pd.cell r' "Feature" = Pd.cell r "Custom field (Feature Link)".
Proof.
  intros r'. unfold r'.
  rewrite !rename_key_cell by (intros [=]).
  rewrite rename_key_cell_new
    by (apply restrict_lookup_out, not_elem_of_by_decide; vm_compute; reflexivity).
  rewrite !restrict_cell by (apply elem_of_by_decide; vm_compute; reflexivity).
  done.
Qed.

Lemma story_rows (raw : DataFrame) (lr : nat * gmap string value) :
  lr ∈ rows (Pd.query_eq
               (Pd.rename
                  (mkDataFrame FileHandler.jira_columns
                     (map (fun lr => (lr.1, Pd.restrict FileHandler.jira_columns lr.2))
                          (rows raw))
                     (filter (fun c => c ∈ FileHandler.jira_columns) (numeric raw)))
                  "Custom field (Feature Link)" "Feature")
               "Issue Type" "Story") <->
  exists r, (lr.1, r) ∈ rows raw /\
    lr.2 = Pd.rename_key "Custom field (Feature Link)" "Feature"
             (Pd.restrict FileHandler.jira_columns r) /\
    Pd.cell r "Issue Type" = VStr "Story".
Proof.
  unfold Pd.query_eq, Pd.rename. simpl. rewrite list_elem_of_filter.
  change (map ?f ?l) with (f <$> l). rewrite <- list_fmap_compose.
  rewrite list_elem_of_fmap. split.
  - intros [Hstory ([l r] & -> & Hin)]. simpl in *. exists r.
    destruct (story_cells r) as (_ & _ & E & _). by rewrite <- E.
  - intros (r & Hin & Hr & Hstory). split.
    + rewrite Hr. by destruct (story_cells r) as (_ & _ & -> & _).
    + exists (lr.1, r). split; [|done]. destruct lr as [l r']. simpl in *. by subst r'.
Qed.

Section NormalizedRows.

Variable parse_csv : string -> Result DataFrame.
Variable parse_excel : string -> Result DataFrame.

Local Abbreviation _load_data := (FileHandler._load_data parse_csv parse_excel).
Local Abbreviation _normalize_jira_export_file :=
  (FileHandler._normalize_jira_export_file parse_csv parse_excel).
Local Abbreviation _normalize_map_file :=
  (FileHandler._normalize_map_file parse_csv parse_excel).

(** X6.  When the export normaliser returns a table, the loaded table has a
    story in the row labelled 0, and the rows returned are exactly the
    stories of the loaded table whose Sprint is one and the same string,
    under their labels, with Summary, Issue key, Issue Type and Sprint as
    loaded and the feature link under Feature. *)
Theorem normalize_jira_story_rows (w : World) (file : string) (t : DataFrame) :
  _normalize_jira_export_file w file = Ok (Value t) ->
  exists raw query,
    _load_data w file = Ok (Value raw) /\
    (exists r0, (0, r0) ∈ rows raw /\ Pd.cell r0 "Issue Type" = VStr "Story") /\
    (forall lr, lr ∈ rows t ->
       exists r, (lr.1, r) ∈ rows raw /\
         Pd.cell r "Issue Type" = VStr "Story" /\ Pd.cell r "Sprint" = VStr query /\
         Pd.cell lr.2 "Summary" = Pd.cell r "Summary" /\
         Pd.cell lr.2 "Issue key" = Pd.cell r "Issue key" /\
         Pd.cell lr.2 "Issue Type" = VStr "Story" /\
         Pd.cell lr.2 "Sprint" = VStr query /\
         Pd.cell lr.2 "Feature" = Pd.cell r "Custom field (Feature Link)") /\
    (forall l r, (l, r) ∈ rows raw ->
       Pd.cell r "Issue Type" = VStr "Story" -> Pd.cell r "Sprint" = VStr query ->
       exists r', (l, r') ∈ rows t).
Proof.
  intros H.
  destruct (normalize_jira_value _ _ _ _ _ H) as (raw & tr & Hload & Hsel & Hrows).
  apply getitem_columns_ok in Hsel as [_ ->].
  unfold FileHandler.latest_sprint_rows in Hrows.
  bind_case_as Hrows Hloc. bind_case_as Hrows Hpi. bind_case_as Hrows Hsp.
  bind_case_as Hrows Hq. injection Hrows as <-.
  rename a2 into query. exists raw, query. split; [done|]. split; [|split].
  - unfold FileHandler._compose_query in Hq. bind_case_as Hq Hget.
    unfold Pd.getitem_label in Hget.
    destruct (find _ (items a)) as [[l v]|] eqn:Hfind; [|discriminate Hget].
    apply find_some in Hfind as [Hin Hl]. simpl in Hl.
    apply bool_decide_eq_true in Hl. subst l.
    unfold Pd.loc_column in Hloc.
    destruct (bool_decide _); [|discriminate Hloc]. injection Hloc as <-. simpl in Hin.
    apply list_elem_of_In in Hin. change (map ?f ?l) with (f <$> l) in Hin.
    apply list_elem_of_fmap in Hin as (lr & [= Hlab _] & Hin).
    apply story_rows in Hin as (r & Hin & _ & Hstory).
    exists r. rewrite Hlab. done.
  - intros lr Hlr. unfold Pd.query_eq at 1 in Hlr. simpl in Hlr.
    apply list_elem_of_filter in Hlr as [Hsprint Hlr].
    apply story_rows in Hlr as (r & Hin & Hr & Hstory).
    exists r. destruct (story_cells r) as (E1 & E2 & E3 & E4 & E5).
    rewrite Hr in Hsprint |- *. rewrite E1, E2, E3, E5. rewrite E4 in Hsprint |- *.
    done.
  - intros l r Hin Hstory Hsprint.
    exists (Pd.rename_key "Custom field (Feature Link)" "Feature"
              (Pd.restrict FileHandler.jira_columns r)).
    unfold Pd.query_eq at 1. simpl. apply list_elem_of_filter. split.
    + simpl. by destruct (story_cells r) as (_ & _ & _ & -> & _).
    + apply story_rows. by exists r.
Qed.

(** X7.  When the map normaliser returns a table, it has the columns
    Feature and Label and every row of the loaded table, in order and under
    its label, with these two cells and no other. *)
Theorem normalize_map_keeps_rows (w : World) (file : string) (t : DataFrame) :
  _normalize_map_file w file = Ok (Value t) ->
  exists raw,
    _load_data w file = Ok (Value raw) /\
    columns t = ["Feature"; "Label"] /\
    Forall2 (fun before after =>
               after.1 = before.1 /\
               after.2 !! "Feature" = before.2 !! "Feature" /\
               after.2 !! "Label" = before.2 !! "Label" /\
               forall c, c <> "Feature" -> c <> "Label" -> after.2 !! c = None)
            (rows raw) (rows t).
Proof.
  intros H. destruct (normalize_map_value _ _ _ _ _ H) as (raw & Hload & Hsel).
  apply getitem_columns_ok in Hsel as [_ ->]. exists raw. split; [done|].
  split; [done|]. simpl.
  apply Forall2_fmap_r, Forall_Forall2_diag, Forall_forall. intros lr _. simpl.
  split; [done|]. split; [|split].
  - apply restrict_lookup. left.
  - apply restrict_lookup. right. left.
  - intros c H1 H2. apply restrict_lookup_out.
    intros [->|[->|?%elem_of_nil]%elem_of_cons]%elem_of_cons; done.
Qed.

Lemma has_columns_missing (cols : list string) (df : DataFrame) :
  Pd.has_columns cols df = false -> exists c, c ∈ cols /\ c ∉ columns df.
Proof.
  unfold Pd.has_columns. induction cols as [|c cols IH]; [done|]. simpl.
  destruct (bool_decide (c ∈ columns df)) eqn:E.
  - intros (c' & Hc' & Hn)%IH. exists c'. split; [by right|done].
  - intros _. exists c. split; [left|]. by apply not_elem_of_by_decide.
Qed.

(** X14.  On a loaded table the normalisers return an error value only for
    a missing column: the error is the missing-columns one and one of the
    required columns is not a column of the table. *)
Theorem column_error_only_when_missing (w : World) (file : string) (raw : DataFrame)
    (e : JLError) :
  _load_data w file = Ok (Value raw) ->
  (_normalize_jira_export_file w file = Ok (Error e) ->
   e = FileHandler.columns_missing /\
   exists c, c ∈ ["Summary"; "Issue key"; "Issue Type";
                  "Custom field (Feature Link)"; "Sprint"] /\ c ∉ columns raw) /\
  (_normalize_map_file w file = Ok (Error e) ->
   e = FileHandler.columns_missing /\
   exists c, c ∈ ["Feature"; "Label"] /\ c ∉ columns raw).
Proof.
  intros Hload.
  unfold FileHandler._normalize_jira_export_file, FileHandler._normalize_map_file.
  rewrite Hload. cbn [bind]. unfold Pd.getitem_columns. split.
  - destruct (Pd.has_columns FileHandler.jira_columns raw) eqn:E.
    + intros H. bind_case_as H Hn. discriminate H.
    + intros [= <-]. split; [done|]. by apply has_columns_missing.
  - destruct (Pd.has_columns FileHandler.map_columns raw) eqn:E.
    + discriminate.
    + intros [= <-]. split; [done|]. by apply has_columns_missing.
Qed.

End NormalizedRows.

(** ** When the merge returns, and how many rows *)

Lemma mapM_length {A B : Type} (f : A -> Result B) (l : list A) (bs : list B) :
  mapM f l = Ok bs -> length bs = length l.
Proof. intros H%mapM_Forall2. symmetry. by eapply Forall2_length. Qed.

Lemma mapM_raise {A B : Type} (f : A -> Result B) (x : exn) (l : list A) :
  (forall a e, f a = Raise e -> e = x) ->
  (exists a e, a ∈ l /\ f a = Raise e) ->
  mapM f l = Raise x.
Proof.
  intros Hx. induction l as [|a l IH]; intros (a' & e & Hin & Ha').
  - by apply elem_of_nil in Hin.
  - simpl. destruct (f a) as [b|e0] eqn:E.
    + cbn [bind]. rewrite IH; [done|].
      apply elem_of_cons in Hin as [->|Hin]; [congruence|]. by exists a', e.
    + cbn [bind]. by rewrite (Hx _ _ E).
Qed.

Lemma str_join_two_outcome (a b : value) :
  (exists key summary, a = VStr key /\ b = VStr summary /\
     Pd.str_join " " [a; b] = Ok (key +:+ " " +:+ summary)) \/
  ((~ exists key summary, a = VStr key /\ b = VStr summary) /\
   Pd.str_join " " [a; b] = Raise TypeError).
Proof.
  destruct a as [k| |], b as [su| |];
    try (right; split; [by intros (? & ? & ? & ?) | reflexivity]).
  left. by exists k, su.
Qed.

Lemma length_join_pairs (key : string) (ls rs : list (nat * gmap string value)) :
  length (Pd.join_pairs key ls rs) =
  sum_list (map (fun l => length (filter (fun r => Pd.cell l.2 key = Pd.cell r.2 key) rs)) ls).
Proof.
  unfold Pd.join_pairs. induction ls as [|l ls IH]; [done|].
  rewrite bind_cons, length_app, IH. simpl. f_equal.
  induction (filter _ rs) as [|r k IHk]; [done|].
  rewrite bind_cons. simpl. by rewrite IHk.
Qed.

Lemma filter_key_at_most_one (v : value) (rs : list (nat * gmap string value)) :
  NoDup (feature_values (mkDataFrame [] rs [])) ->
  length (filter (fun r => v = Pd.cell r.2 "Feature") rs) <= 1.
Proof.
  unfold feature_values. simpl. induction rs as [|r rs IH]; [simpl; lia|].
  simpl. intros [Hr Hnd]%NoDup_cons.
  destruct (decide (v = Pd.cell r.2 "Feature")) as [->|Hne].
  - rewrite filter_cons_True by done. simpl.
    assert (E : filter (fun r0 => Pd.cell r.2 "Feature" = Pd.cell r0.2 "Feature") rs = []).
    { clear -Hr. induction rs as [|r' rs IH]; [done|].
      rewrite filter_cons_False; [apply IH|].
      - intros Hin. apply Hr. by right.
      - intros Heq. apply Hr. simpl. rewrite Heq. left. }
    rewrite E. simpl. lia.
  - rewrite filter_cons_False by done. by apply IH.
Qed.

Lemma join_pairs_at_most_left (ls rs : list (nat * gmap string value)) :
  NoDup (feature_values (mkDataFrame [] rs [])) ->
  length (Pd.join_pairs "Feature" ls rs) <= length ls.
Proof.
  intros Hnd. rewrite length_join_pairs. induction ls as [|l ls IH]; [done|].
  simpl. pose proof (filter_key_at_most_one (Pd.cell l.2 "Feature") rs Hnd). lia.
Qed.

Lemma mapM_map {A B C : Type} (f : B -> Result C) (h : A -> B) (l : list A) :
  mapM f (map h l) = mapM (fun a => f (h a)) l.
Proof. induction l as [|a l IH]; [done|]. simpl. by rewrite IH. Qed.

Lemma mapM_ext {A B : Type} (f g : A -> Result B) (l : list A) :
  (forall a, f a = g a) -> mapM f l = mapM g l.
Proof. intros H. induction l as [|a l IH]; [done|]. simpl. by rewrite H, IH. Qed.

Lemma match_nonempty {A B : Type} (l : list A) (a b : B) :
  l <> [] -> match l with [] => a | _ :: _ => b end = b.
Proof. by destruct l. Qed.

Lemma apply_join_rows (df : DataFrame) (sep : string) :
  rows df <> [] ->
  Pd.apply_join df sep =
  (its <- mapM (fun lr => s <- Pd.str_join sep (map (Pd.cell lr.2) (columns df)) ;;
                          Ok (lr.1, VStr s)) (rows df) ;;
   Ok (AppliedSeries (mkSeries its))).
Proof. unfold Pd.apply_join. by destruct (rows df). Qed.

(** [merge_tables] on two normalised tables, step by step: the check of the
    keys, the join, and the assignment of the joined strings, which is
    refused when the join has no row. *)
Lemma merge_tables_unfolded (jira map_table : DataFrame) :
  columns jira = normalized_columns ->
  columns map_table = FileHandler.map_columns ->
  let matched := Pd.join_pairs "Feature" (rows jira) (rows map_table) in
  let joined :=
    mkDataFrame merged_columns
      (Pd.relabel
         (map (fun lr => Pd.merge_row "Feature" normalized_columns
                           FileHandler.map_columns lr.1 lr.2)
              matched))
      (Pd.merge_numeric "Feature" jira map_table) in
  FileHandler.merge_tables jira map_table =
  if Pd.keys_clash jira map_table "Feature" then Raise ValueError
  else
    match matched with
    | [] => Raise ValueError
    | _ :: _ =>
        its <- mapM (fun lr => s <- Pd.str_join " " [Pd.cell lr.2 "Issue key";
                                                     Pd.cell lr.2 "Summary"] ;;
                               Ok (lr.1, VStr s)) (rows joined) ;;
        Ok (Pd.setitem joined "Summary" (mkSeries its))
    end.
Proof.
  intros H1 H2 matched. unfold FileHandler.merge_tables.
  rewrite (merge_normalized _ _ H1 H2). fold matched. clearbody matched.
  destruct (Pd.keys_clash jira map_table "Feature"); [done|].
  cbv zeta. cbn [bind].
  destruct matched as [|pair matched]; [reflexivity|].
  set (joined := mkDataFrame _ _ _).
  unfold Pd.getitem_columns.
  replace (Pd.has_columns ["Issue key"; "Summary"] joined) with true
    by (vm_compute; reflexivity).
  cbn [bind]. rewrite apply_join_rows by (intros [=]).
  cbn [rows columns]. rewrite mapM_map.
  rewrite (mapM_ext _ (fun lr => s <- Pd.str_join " " [Pd.cell lr.2 "Issue key";
                                                       Pd.cell lr.2 "Summary"] ;;
                                 Ok (lr.1, VStr s))).
  - by destruct (mapM _ (rows joined)).
  - intros lr. cbn [map fst snd]. by rewrite !restrict_cell by (repeat constructor).
Qed.

Section MergeOutcome.

Variable parse_csv : string -> Result DataFrame.
Variable parse_excel : string -> Result DataFrame.

Local Abbreviation _normalize_jira_export_file :=
  (FileHandler._normalize_jira_export_file parse_csv parse_excel).
Local Abbreviation _normalize_map_file :=
  (FileHandler._normalize_map_file parse_csv parse_excel).
Local Abbreviation _merge_files := (FileHandler._merge_files parse_csv parse_excel).
Local Abbreviation generate_csv := (FileHandler.generate_csv parse_csv parse_excel).
Local Abbreviation generate := (FileHandler.generate parse_csv parse_excel).

(** X8.  The outcomes of [_merge_files] on two normalised tables.  When the
    types of the two Feature columns clash (one numeric, the other of
    strings) it raises [ValueError], from the merge.  Otherwise: when no
    pair of rows matches it raises [ValueError], from the assignment to the
    Summary column; when pairs match and the export row of every one has
    strings for Issue key and Summary it returns a table with one row per
    pair; when some matched pair has not (a missing Summary, a number) it
    raises [TypeError]. *)
Theorem merge_files_string_cells (w : World) (file map_file : string)
    (jira map_table : DataFrame) :
  _normalize_jira_export_file w file = Ok (Value jira) ->
  _normalize_map_file w map_file = Ok (Value map_table) ->
  let matched := Pd.join_pairs "Feature" (rows jira) (rows map_table) in
  (Pd.keys_clash jira map_table "Feature" = true ->
   _merge_files w file map_file = Raise ValueError) /\
  (Pd.keys_clash jira map_table "Feature" = false ->
   (matched = [] -> _merge_files w file map_file = Raise ValueError) /\
   (matched <> [] -> Forall summarisable matched ->
    exists merged, _merge_files w file map_file = Ok (Value merged) /\
                   length (rows merged) = length matched) /\
   (Exists (fun pair => ~ summarisable pair) matched ->
    _merge_files w file map_file = Raise TypeError)).
Proof.
  intros N1 N2 matched.
  pose proof (normalize_jira_columns _ _ _ _ _ N1) as C1.
  pose proof (normalize_map_columns _ _ _ _ _ N2) as C2.
  unfold FileHandler._merge_files. rewrite N1, N2. cbn [bind].
  rewrite (merge_tables_unfolded _ _ C1 C2). cbv zeta. cbn [rows]. fold matched.
  clearbody matched.
  split; [by intros ->|]. intros ->.
  split; [by intros ->|].
  set (f := fun lr : nat * gmap string value =>
              s <- Pd.str_join " " [Pd.cell lr.2 "Issue key"; Pd.cell lr.2 "Summary"] ;;
              Ok (lr.1, VStr s)).
  set (joined_rows := Pd.relabel _).
  assert (Hcells : forall lr, lr ∈ joined_rows ->
            exists pair, pair ∈ matched /\
              Pd.cell lr.2 "Issue key" = Pd.cell pair.1 "Issue key" /\
              Pd.cell lr.2 "Summary" = Pd.cell pair.1 "Summary").
  { intros lr Hlr%elem_of_relabel. change (map ?g ?l) with (g <$> l) in Hlr.
    apply list_elem_of_fmap in Hlr as ([l r] & -> & Hpair).
    exists (l, r). split; [done|]. simpl.
    by destruct (merge_row_cells l r) as (-> & -> & _). }
  split.
  - intros Hne Hall.
    destruct (mapM_total f (fun lr => lr ∈ joined_rows) joined_rows) as [its Hits].
    + intros lr (pair & Hpair & Ek & Es)%Hcells.
      rewrite Forall_forall in Hall. destruct (Hall _ Hpair) as (key & summary & Hk & Hs).
      unfold f. rewrite Ek, Es, Hk, Hs. by eexists.
    + by apply Forall_forall.
    + rewrite Hits, match_nonempty by done.
      cbn [bind]. eexists. split; [done|]. simpl.
      unfold joined_rows, Pd.relabel. by rewrite length_map, length_imap, length_map.
  - intros (pair & Hpair & Hbad)%Exists_exists.
    rewrite (mapM_raise f TypeError).
    + rewrite match_nonempty; [done|]. intros ->. by apply elem_of_nil in Hpair.
    + intros lr e. unfold f.
      destruct (str_join_two_outcome (Pd.cell lr.2 "Issue key") (Pd.cell lr.2 "Summary"))
        as [(? & ? & _ & _ & ->)|[_ ->]]; [discriminate | by intros [= <-]].
    + destruct pair as [l r].
      apply (list_elem_of_fmap_2
        (fun lr => Pd.merge_row "Feature" normalized_columns FileHandler.map_columns
                     lr.1 lr.2)) in Hpair.
      apply relabel_elem_of in Hpair as (n & Hn). fold joined_rows in Hn.
      exists (n, Pd.merge_row "Feature" normalized_columns FileHandler.map_columns l r).
      exists TypeError. split; [done|]. unfold f. cbn [fst snd].
      destruct (merge_row_cells l r) as (-> & -> & _).
      destruct (str_join_two_outcome (Pd.cell l "Issue key") (Pd.cell l "Summary"))
        as [(key & summary & Hk & Hs & _)|[_ ->]]; [|done].
      destruct Hbad. by exists key, summary.
Qed.

(** X9.  The rows of the merged table are labelled 0, 1, 2, ... anew, there
    is one per matched pair of rows, and when the Feature cells of the
    normalised map are pairwise different the merged table has no more rows
    than the normalised export. *)
Theorem merged_rows_relabelled_and_bounded (w : World) (file map_file : string)
    (jira map_table merged : DataFrame) :
  _normalize_jira_export_file w file = Ok (Value jira) ->
  _normalize_map_file w map_file = Ok (Value map_table) ->
  _merge_files w file map_file = Ok (Value merged) ->
  map fst (rows merged) = seq 0 (length (rows merged)) /\
  length (rows merged) =
    length (Pd.join_pairs "Feature" (rows jira) (rows map_table)) /\
  (NoDup (feature_values map_table) -> length (rows merged) <= length (rows jira)).
Proof.
  intros N1 N2 H.
  destruct (merge_files_value _ _ _ _ _ _ H) as (jira' & mp' & N1' & N2' & C1 & C2 & M).
  rewrite N1 in N1'. rewrite N2 in N2'. injection N1' as <-. injection N2' as <-.
  destruct (merge_tables_value _ _ _ C1 C2 M) as (joined & _ & Hrows & _ & HF).
  assert (Hlen : length (rows merged) =
                 length (Pd.join_pairs "Feature" (rows jira) (rows map_table))).
  { rewrite <- (Forall2_length _ _ _ HF), Hrows.
    unfold Pd.relabel. by rewrite length_imap, length_map. }
  split; [|split; [done|]].
  - assert (E : map fst (rows merged) = map fst (rows joined)).
    { clear -HF. induction HF as [|b a l k [Hl _] _ IH]; [done|]. simpl. by rewrite Hl, IH. }
    rewrite E, Hrows, relabel_fst, length_map. by rewrite <- Hlen.
  - intros Hnd. rewrite Hlen. by apply join_pairs_at_most_left.
Qed.

Lemma generate_csv_frame (w w' : World) (jira_file map_file export_file_name s : string) :
  generate_csv w jira_file map_file export_file_name = Ok (s, w') ->
  (forall path, path <> export_file_name +:+ ".csv" -> files w' !! path = files w !! path) /\
  writable w' = writable w /\ linesep w' = linesep w /\
  (s <> "CSV file generated successfully!" -> w' = w).
Proof.
  unfold FileHandler.generate_csv. intros H. bind_case_as H M.
  destruct a as [table|e].
  - bind_case_as H W. injection H as <- <-. unfold to_csv in W.
    destruct (negb _); [discriminate W|].
    destruct (writable w _); [|discriminate W]. injection W as <-. simpl.
    split; [|done]. intros path Hpath. by rewrite lookup_insert_ne.
  - by injection H as <- <-.
Qed.

(** X10.  A run of [generate_csv] that returns leaves every file other than
    the output file as it was, and when it returns anything but the success
    message it leaves the whole file system as it was. *)
Theorem generate_csv_touches_only_output (w w' : World)
    (jira_file map_file export_file_name s : string) :
  generate_csv w jira_file map_file export_file_name = Ok (s, w') ->
  (forall path, path <> export_file_name +:+ ".csv" -> files w' !! path = files w !! path) /\
  writable w' = writable w /\ linesep w' = linesep w /\
  (s <> "CSV file generated successfully!" -> w' = w).
Proof. apply generate_csv_frame. Qed.

(** X11.  [generate] with one of its four strings empty shows the fill-in
    message and reads and writes nothing; with all four filled it is
    [generate_csv] on the destination folder, a slash and the file name, so
    the only file it can change is the one under that name followed by
    ".csv". *)
Theorem generate_guard_and_path (w : World)
    (jira_file map_file destination_folder csv_file_name : string) :
  (jira_file = "" \/ map_file = "" \/ destination_folder = "" \/ csv_file_name = "" ->
   generate w jira_file map_file destination_folder csv_file_name =
     Ok ("You need to fill all the information above first!", w)) /\
  (jira_file <> "" -> map_file <> "" -> destination_folder <> "" -> csv_file_name <> "" ->
   generate w jira_file map_file destination_folder csv_file_name =
     generate_csv w jira_file map_file (destination_folder +:+ "/" +:+ csv_file_name) /\
   forall s w',
     generate w jira_file map_file destination_folder csv_file_name = Ok (s, w') ->
     forall path, path <> (destination_folder +:+ "/" +:+ csv_file_name) +:+ ".csv" ->
       files w' !! path = files w !! path).
Proof.
  unfold FileHandler.generate. split.
  - intros [->|[->|[->| ->]]]; simpl; rewrite ?andb_false_r; done.
  - intros H1 H2 H3 H4.
    apply String.eqb_neq in H1, H2, H3, H4. rewrite H1, H2, H3, H4. simpl.
    split; [done|]. intros s w' H. by apply (generate_csv_frame _ _ _ _ _ _ H).
Qed.

End MergeOutcome.

(** ** The composed query on a regular label *)

Lemma append_nil_r (s : string) : s +:+ "" = s.
Proof. induction s as [|c s IH]; [done|]. rewrite append_cons. by rewrite IH. Qed.

Lemma sub_from_cons (p : Re.pattern) (repl : string) (c : ascii) (s : string) :
  Re.sub_from p repl 0 (String c s) =
  match p (String c s) with
  | Some (S n) => repl +:+ Re.sub_from p repl n s
  | _ => String c (Re.sub_from p repl 0 s)
  end.
Proof. reflexivity. Qed.

Lemma pi_pattern_no_digit (c : ascii) (s : string) :
  Re.is_digit c = false -> Re.pi_pattern (String c s) = None.
Proof.
  intros H. unfold Re.pi_pattern. destruct s as [|b [|x [|d rest]]]; try done.
  by rewrite H.
Qed.

Lemma sub_pi_no_digit (repl pre rest : string) :
  no_digit pre = true ->
  Re.sub_from Re.pi_pattern repl 0 (pre +:+ rest) =
  pre +:+ Re.sub_from Re.pi_pattern repl 0 rest.
Proof.
  induction pre as [|c pre IH]; [done|].
  intros H. cbn [no_digit] in H. apply andb_true_iff in H as [Hc Hpre].
  apply negb_true_iff in Hc.
  rewrite !append_cons, sub_from_cons.
  rewrite (pi_pattern_no_digit _ _ Hc). by rewrite IH.
Qed.

Lemma sub_pi_at_match (repl rest : string) (a b d : ascii) :
  Re.is_digit a = true -> Re.is_digit b = true -> Re.is_digit d = true ->
  Re.sub_from Re.pi_pattern repl 0 (String a (String b (String "." (String d rest)))) =
  repl +:+ Re.sub_from Re.pi_pattern repl 0 rest.
Proof.
  intros Ha Hb Hd. rewrite sub_from_cons.
  assert (E : Re.pi_pattern (String a (String b (String "." (String d rest)))) = Some 4)
    by (unfold Re.pi_pattern; by rewrite Ha, Hb, Hd).
  by rewrite E.
Qed.

Lemma digit_not_newline (d : ascii) : Re.is_digit d = true -> Ascii.eqb d "010" = false.
Proof. destruct d as [[] [] [] [] [] [] [] []]; by vm_compute. Qed.

Lemma sub_pi_single (repl : string) (d : ascii) :
  Re.sub_from Re.pi_pattern repl 0 (String d EmptyString) = String d EmptyString.
Proof. reflexivity. Qed.

(** The second substitution touches the last character only. *)
Lemma sub_sprint_last (repl pre : string) (d : ascii) :
  Re.is_digit d = true ->
  Re.sub_from Re.sprint_pattern repl 0 (pre +:+ String d EmptyString) = pre +:+ repl.
Proof.
  intros Hd. induction pre as [|c pre IH].
  - rewrite !append_nil. simpl. rewrite Hd. by rewrite append_nil_r.
  - rewrite !append_cons, sub_from_cons.
    assert (E : Re.sprint_pattern (String c (pre +:+ String d EmptyString)) = None).
    { destruct pre as [|x [|y pre]].
      - rewrite append_nil. simpl. rewrite (digit_not_newline d Hd).
        by rewrite andb_false_r.
      - reflexivity.
      - reflexivity. }
    rewrite E. by rewrite IH.
Qed.

(** X15.  When the Sprint in the row labelled 0 is some text without
    digits, a period NN.N, more text without digits and a final digit (as
    "Team Kiwi PI23.1 Sprint 5"), the composed query is the same text with
    the period replaced by [current_pi] and the final digit by
    [current_sprint]. *)
Theorem compose_query_on_regular_label (sprints : Series)
    (before between current_pi current_sprint : string) (a b d e : ascii) :
  Pd.getitem_label sprints 0 =
    Ok (VStr (before +:+
              String a (String b (String "." (String d
                (between +:+ String e EmptyString)))))) ->
  no_digit before = true -> no_digit between = true ->
  Re.is_digit a = true -> Re.is_digit b = true -> Re.is_digit d = true ->
  Re.is_digit e = true ->
  Py.contains "\" current_pi = false -> Py.contains "\" current_sprint = false ->
  FileHandler._compose_query sprints current_pi current_sprint =
    Ok (before +:+ current_pi +:+ between +:+ current_sprint).
Proof.
  intros Hget Hbefore Hbetween Ha Hb Hd He Hpi Hsp.
  unfold FileHandler._compose_query. rewrite Hget. cbn [bind].
  unfold FileHandler.re_sub, Re.template. rewrite Hpi. cbn [bind]. rewrite Hsp. cbn [bind].
  rewrite (sub_pi_no_digit _ _ _ Hbefore), (sub_pi_at_match _ _ _ _ _ Ha Hb Hd).
  rewrite (sub_pi_no_digit _ _ _ Hbetween), sub_pi_single.
  rewrite <- !append_assoc. rewrite (sub_sprint_last _ _ _ He).
  by rewrite !append_assoc.
Qed.

(** ** The further properties at the sample inputs *)

Lemma load_data_returns_parsed_table_witness :
  FileHandler._load_data Sample.parse Sample.parse Sample.disk "map.xlsx" =
    Ok (Value Sample.map_table).
Proof.
  apply (load_data_returns_parsed_table Sample.parse Sample.parse Sample.disk
           "map.xlsx" "xlsx" Sample.map_table).
  - split; [reflexivity | right; exists "map"; reflexivity].
  - split; [apply supported_by_decide; vm_compute; reflexivity|].
    exists "map". split; reflexivity.
Defined.

Lemma load_data_raises_only_reader_errors_witness :
  FileHandler._load_data Sample.parse Sample.parse Sample.garbled_disk "garbled.csv" =
    Raise ParserError.
Proof.
  apply (load_data_raises_only_reader_errors Sample.parse Sample.parse
           Sample.garbled_disk "garbled.csv" "csv" ParserError).
  - split; [reflexivity | right; exists "garbled"; reflexivity].
  - split; [discriminate|].
    split; [apply supported_by_decide; vm_compute; reflexivity|].
    exists "not a table". split; reflexivity.
Defined.

Lemma generate_csv_messages_witness :
  exists e, base_error e /\
    ("Unsupported file type." +:+ nl +:+
       "Please use only excel or csv files. (from map file)" =
       message e +:+ " (from Jira extraction file)" \/
     "Unsupported file type." +:+ nl +:+
       "Please use only excel or csv files. (from map file)" =
       message e +:+ " (from map file)" \/
     exists e2, base_error e2 /\
       "Unsupported file type." +:+ nl +:+
         "Please use only excel or csv files. (from map file)" =
       message e +:+ "(from Jira extraction file) and" +:+ nl +:+
       message e2 +:+ " (from map file)").
Proof.
  destruct (generate_csv_messages Sample.parse Sample.parse Sample.disk Sample.disk
              "jira.csv" "notes.txt" "out/report"
              ("Unsupported file type." +:+ nl +:+
               "Please use only excel or csv files. (from map file)"))
    as [H|H].
  - vm_compute. reflexivity.
  - discriminate H.
  - exact H.
Defined.

Lemma determine_current_pi_returns_witness :
  exists s,
    VStr s ∈ Pd.values (mkSeries [(0, VStr "PI23.1 Sprint 4"); (1, VStr "PI23.2 Sprint 1");
                                  (3, VStr "PI23.2 Sprint 3")]) /\
    Re.search Re.pi_pattern s = Some "23.2".
Proof.
  destruct (determine_current_pi_returns
              (mkSeries [(0, VStr "PI23.1 Sprint 4"); (1, VStr "PI23.2 Sprint 1");
                         (3, VStr "PI23.2 Sprint 3")])) as (_ & _ & H).
  apply (H "23.2"). vm_compute. reflexivity.
Defined.

Lemma latest_sprint_after_current_pi_witness :
  exists c,
    FileHandler._determine_latest_sprint
      (mkSeries [(0, VStr "PI23.1 Sprint 4"); (1, VStr "PI23.2 Sprint 1");
                 (3, VStr "PI23.2 Sprint 3")]) "23.2" = Ok c /\
    (exists s,
       VStr s ∈ Pd.values (mkSeries [(0, VStr "PI23.1 Sprint 4");
                                     (1, VStr "PI23.2 Sprint 1");
                                     (3, VStr "PI23.2 Sprint 3")]) /\
       Py.contains "23.2" s = true /\ Py.str_last s = Ok c) /\
    forall s c',
      VStr s ∈ Pd.values (mkSeries [(0, VStr "PI23.1 Sprint 4");
                                    (1, VStr "PI23.2 Sprint 1");
                                    (3, VStr "PI23.2 Sprint 3")]) ->
      Py.contains "23.2" s = true -> Py.str_last s = Ok c' -> String.le c' c.
Proof.
  apply latest_sprint_after_current_pi. vm_compute. reflexivity.
Defined.

Lemma normalize_jira_story_rows_witness :
  exists raw query,
    FileHandler._load_data Sample.parse Sample.parse Sample.disk "jira.csv" =
      Ok (Value raw) /\
    (exists r0, (0, r0) ∈ rows raw /\ Pd.cell r0 "Issue Type" = VStr "Story") /\
    (forall lr, lr ∈ rows Sample.normalized_export ->
       exists r, (lr.1, r) ∈ rows raw /\
         Pd.cell r "Issue Type" = VStr "Story" /\ Pd.cell r "Sprint" = VStr query /\
         Pd.cell lr.2 "Summary" = Pd.cell r "Summary" /\
         Pd.cell lr.2 "Issue key" = Pd.cell r "Issue key" /\
         Pd.cell lr.2 "Issue Type" = VStr "Story" /\
         Pd.cell lr.2 "Sprint" = VStr query /\
         Pd.cell lr.2 "Feature" = Pd.cell r "Custom field (Feature Link)") /\
    (forall l r, (l, r) ∈ rows raw ->
       Pd.cell r "Issue Type" = VStr "Story" -> Pd.cell r "Sprint" = VStr query ->
       exists r', (l, r') ∈ rows Sample.normalized_export).
Proof.
  apply (normalize_jira_story_rows Sample.parse Sample.parse Sample.disk "jira.csv"
           Sample.normalized_export).
  vm_compute. reflexivity.
Defined.

Lemma normalize_map_keeps_rows_witness :
  exists raw,
    FileHandler._load_data Sample.parse Sample.parse Sample.disk "map.xlsx" =
      Ok (Value raw) /\
    columns Sample.map_table = ["Feature"; "Label"] /\
    Forall2 (fun before after =>
               after.1 = before.1 /\
               after.2 !! "Feature" = before.2 !! "Feature" /\
               after.2 !! "Label" = before.2 !! "Label" /\
               forall c, c <> "Feature" -> c <> "Label" -> after.2 !! c = None)
            (rows raw) (rows Sample.map_table).
Proof.
  apply (normalize_map_keeps_rows Sample.parse Sample.parse Sample.disk "map.xlsx"
           Sample.map_table).
  vm_compute. reflexivity.
Defined.

Lemma merge_files_string_cells_witness :
  (exists merged,
     FileHandler._merge_files Sample.parse Sample.parse Sample.disk "jira.csv" "map.xlsx" =
       Ok (Value merged) /\
     length (rows merged) =
       length (Pd.join_pairs "Feature" (rows Sample.normalized_export)
                 (rows Sample.map_table))) /\
  FileHandler._merge_files Sample.parse_more Sample.parse_more Sample.disk_more
    "nosummary.csv" "map.xlsx" = Raise TypeError /\
  FileHandler._merge_files Sample.parse_keys Sample.parse_keys Sample.disk_keys
    "jira.csv" "unused.xlsx" = Raise ValueError /\
  FileHandler._merge_files Sample.parse_keys Sample.parse_keys Sample.disk_keys
    "jira.csv" "numbered.xlsx" = Raise ValueError.
Proof.
  split; [|split; [|split]].
  - destruct (merge_files_string_cells Sample.parse Sample.parse Sample.disk
                "jira.csv" "map.xlsx" Sample.normalized_export Sample.map_table)
      as [_ H].
    + vm_compute. reflexivity.
    + vm_compute. reflexivity.
    + destruct H as (_ & H & _); [vm_compute; reflexivity|].
      replace (Pd.join_pairs "Feature" (rows Sample.normalized_export)
                 (rows Sample.map_table))
        with [(({[ "Summary" := VStr "Pay by card"; "Issue key" := VStr "K-4";
                   "Issue Type" := VStr "Story"; "Feature" := VStr "F2";
                   "Sprint" := VStr "PI23.2 Sprint 3" ]} : gmap string value),
               Sample.map_row "F2" "billing")] in H |- *
        by (vm_compute; reflexivity).
      apply H; [intros [=]|].
      constructor; [|constructor].
      exists "K-4", "Pay by card". split; vm_compute; reflexivity.
  - destruct (merge_files_string_cells Sample.parse_more Sample.parse_more
                Sample.disk_more "nosummary.csv" "map.xlsx"
                Sample.normalized_unsummarised Sample.map_table) as [_ H].
    + vm_compute. reflexivity.
    + vm_compute. reflexivity.
    + destruct H as (_ & _ & H); [vm_compute; reflexivity|].
      apply H.
      replace (Pd.join_pairs "Feature" (rows Sample.normalized_unsummarised)
                 (rows Sample.map_table))
        with [(({[ "Summary" := VNaN; "Issue key" := VStr "K-1";
                   "Issue Type" := VStr "Story"; "Feature" := VStr "F1";
                   "Sprint" := VStr "PI23.2 Sprint 3" ]} : gmap string value),
               Sample.map_row "F1" "auth")]
        by (vm_compute; reflexivity).
      apply Exists_cons_hd. intros (key & summary & _ & Hs).
      vm_compute in Hs. discriminate Hs.
  - destruct (merge_files_string_cells Sample.parse_keys Sample.parse_keys
                Sample.disk_keys "jira.csv" "unused.xlsx"
                Sample.normalized_export Sample.unused_map_table) as [_ H].
    + vm_compute. reflexivity.
    + vm_compute. reflexivity.
    + destruct H as (H & _); [vm_compute; reflexivity|].
      apply H. vm_compute. reflexivity.
  - destruct (merge_files_string_cells Sample.parse_keys Sample.parse_keys
                Sample.disk_keys "jira.csv" "numbered.xlsx"
                Sample.normalized_export Sample.numbered_map_table) as [H _].
    + vm_compute. reflexivity.
    + vm_compute. reflexivity.
    + apply H. vm_compute. reflexivity.
Defined.

Lemma merged_rows_relabelled_and_bounded_witness :
  map fst (rows Sample.merged) = seq 0 (length (rows Sample.merged)) /\
  length (rows Sample.merged) =
    length (Pd.join_pairs "Feature" (rows Sample.normalized_export)
              (rows Sample.map_table)) /\
  (NoDup (feature_values Sample.map_table) ->
   length (rows Sample.merged) <= length (rows Sample.normalized_export)).
Proof.
  apply (merged_rows_relabelled_and_bounded Sample.parse Sample.parse Sample.disk
           "jira.csv" "map.xlsx"); vm_compute; reflexivity.
Defined.

Lemma generate_csv_touches_only_output_witness :
  (forall path, path <> "out/report" +:+ ".csv" ->
     files Sample.disk_after !! path = files Sample.disk !! path) /\
  writable Sample.disk_after = writable Sample.disk /\
  linesep Sample.disk_after = linesep Sample.disk /\
  ("CSV file generated successfully!" <> "CSV file generated successfully!" ->
   Sample.disk_after = Sample.disk).
Proof.
  apply (generate_csv_touches_only_output Sample.parse Sample.parse Sample.disk
           Sample.disk_after "jira.csv" "map.xlsx" "out/report").
  vm_compute. reflexivity.
Defined.

Lemma generate_guard_and_path_witness :
  FileHandler.generate Sample.parse Sample.parse Sample.disk "jira.csv" "map.xlsx" "" "report"
    = Ok ("You need to fill all the information above first!", Sample.disk) /\
  FileHandler.generate Sample.parse Sample.parse Sample.disk "jira.csv" "map.xlsx" "out" "report"
    = FileHandler.generate_csv Sample.parse Sample.parse Sample.disk
        "jira.csv" "map.xlsx" "out/report".
Proof.
  split.
  - apply (generate_guard_and_path Sample.parse Sample.parse Sample.disk
             "jira.csv" "map.xlsx" "" "report").
    right. right. left. reflexivity.
  - apply (generate_guard_and_path Sample.parse Sample.parse Sample.disk
             "jira.csv" "map.xlsx" "out" "report"); discriminate.
Defined.

Lemma load_data_error_values_witness :
  FileHandler._load_data Sample.parse Sample.parse Sample.empty_disk "missing.xls" =
    Ok (Error FileHandler.file_not_found).
Proof.
  apply (load_data_error_values Sample.parse Sample.parse Sample.empty_disk
           "missing.xls" "xls" FileHandler.file_not_found).
  - split; [reflexivity | right; exists "missing"; reflexivity].
  - right. split; [apply supported_by_decide; vm_compute; reflexivity|].
    split; [reflexivity|]. left. reflexivity.
Defined.

Lemma column_error_only_when_missing_witness :
  FileHandler.columns_missing = FileHandler.columns_missing /\
  exists c, c ∈ ["Feature"; "Label"] /\ c ∉ columns Sample.no_sprint_table.
Proof.
  apply (column_error_only_when_missing Sample.parse Sample.parse Sample.disk
           "nosprint.xlsx" Sample.no_sprint_table FileHandler.columns_missing);
    vm_compute; reflexivity.
Defined.

Lemma compose_query_on_regular_label_witness :
  FileHandler._compose_query (mkSeries [(0, VStr "Team Kiwi PI23.1 Sprint 5")]) "23.2" "7" =
    Ok ("Team Kiwi PI" +:+ "23.2" +:+ " Sprint " +:+ "7").
Proof.
  apply (compose_query_on_regular_label
           (mkSeries [(0, VStr "Team Kiwi PI23.1 Sprint 5")])
           "Team Kiwi PI" " Sprint " "23.2" "7" "2" "3" "1" "5"); reflexivity.
Defined.
